(** * City configuration store of BIZWIZ: a shallow embedding of [city_config.py]

    The development follows the source file top to bottom:

    - Python values and the [dict] operations the store uses (insertion
      ordered, unique keys);
    - the part of PyYAML the store goes through: [yaml.dump] (the full
      [Dumper]) and [yaml.safe_load] (the [SafeLoader]), at the level of the
      representation graph of a document;
    - the five dataclasses with their keyword constructors, [asdict] and
      [from_dict];
    - [numpy.arange] on binary64 floats and [CityBounds.get_grid_points];
    - [CityConfigManager], as a state-and-exception monad over the manager
      object and the backing file.

    Modelling conventions.  The text of the backing file is not modelled: a
    file holds either something the YAML parser rejects or the node graph of
    one document, and writing then parsing a node graph is taken to be the
    identity on it.  Mapping keys are strings.  Floats are IEEE 754 binary64
    (Rocq's primitive floats), as CPython's and numpy's are. *)

From Stdlib Require Import List String Ascii Bool ZArith Lia Permutation.
From Stdlib Require Import PrimFloat FloatOps Uint63.
Import ListNotations.

Set Warnings "-inexact-float,-register-all".
Local Open Scope string_scope.
Local Open Scope list_scope.

(** ** Python dictionaries with string keys

    A [dict] keeps its items in insertion order; assigning to a key that is
    present keeps the key's position, deleting a key removes its item. *)

Definition dict (V : Type) : Type := list (string * V).

Section PyDict.
Context {V : Type}.

(** [d.get(k)] *)
Fixpoint dict_get (k : string) (d : dict V) : option V :=
  match d with
  | [] => None
  | (k', v) :: r => if String.eqb k' k then Some v else dict_get k r
  end.

(** [k in d] *)
Definition dict_mem (k : string) (d : dict V) : bool :=
  match dict_get k d with Some _ => true | None => false end.

(** [d[k] = v] *)
Fixpoint dict_set (k : string) (v : V) (d : dict V) : dict V :=
  match d with
  | [] => [(k, v)]
  | (k', v') :: r =>
      if String.eqb k' k then (k, v) :: r else (k', v') :: dict_set k v r
  end.

(** [del d[k]] (the caller has checked [k in d]) *)
Definition dict_del (k : string) (d : dict V) : dict V :=
  filter (fun kv => negb (String.eqb (fst kv) k)) d.

(** [list(d.keys())] *)
Definition dict_keys (d : dict V) : list string := map fst d.

(** [next(iter(d.keys()), None)] as an option *)
Definition dict_first_key (d : dict V) : option string :=
  match d with
  | [] => None
  | (k, _) :: _ => Some k
  end.

(** [dict(items)]: later items win, a key keeps its first position. *)
Definition dict_of_items (items : list (string * V)) : dict V :=
  fold_left (fun acc kv => dict_set (fst kv) (snd kv) acc) items [].


(** Well-formed dictionaries have no repeated key. *)
Definition dict_wf (d : dict V) : Prop := NoDup (dict_keys d).

(** [sorted(d.items())], as [yaml.dump] orders a mapping ([sort_keys] is on
    by default): insertion sort on the key. *)
Fixpoint insert_item (kv : string * V) (l : list (string * V)) : list (string * V) :=
  match l with
  | [] => [kv]
  | kv' :: r =>
      if String.leb (fst kv) (fst kv') then kv :: l else kv' :: insert_item kv r
  end.

Definition sorted_items (d : dict V) : list (string * V) :=
  fold_right insert_item [] d.
End PyDict.

(** ** Python values *)

Inductive pyval : Type :=
| PNone
| PBool (b : bool)
| PInt (z : Z)
| PFloat (f : float)
| PStr (s : string)
| PList (l : list pyval)
| PTuple (l : list pyval)
| PDict (d : list (string * pyval)).

(** [v == s] for a string [s] *)
Definition py_eq_str (v : pyval) (s : string) : bool :=
  match v with
  | PStr t => String.eqb t s
  | _ => false
  end.

(** ** Exceptions and outcomes *)

Inductive exn : Type :=
| YAMLError        (* scanner, parser and constructor errors of PyYAML *)
| KeyError
| TypeError
| AttributeError
| OSError.

Inductive outcome (A : Type) : Type :=
| Ok (a : A)
| Raise (e : exn).
Arguments Ok {A} a.
Arguments Raise {A} e.

Definition obind {A B : Type} (x : outcome A) (f : A -> outcome B) : outcome B :=
  match x with
  | Ok a => f a
  | Raise e => Raise e
  end.

Declare Scope outcome_scope.
Delimit Scope outcome_scope with outcome.
Notation "x <- c1 ;; c2" := (obind c1 (fun x => c2))
  (at level 61, c1 at next level, right associativity) : outcome_scope.

(** [v[k]] *)
Definition py_getitem (v : pyval) (k : string) : outcome pyval :=
  match v with
  | PDict d => match dict_get k d with
               | Some x => Ok x
               | None => Raise KeyError
               end
  | _ => Raise TypeError
  end.

(** [v.items()] *)
Definition py_items (v : pyval) : outcome (list (string * pyval)) :=
  match v with
  | PDict d => Ok d
  | _ => Raise AttributeError
  end.

(** [v.get(k)] *)
Definition py_get (v : pyval) (k : string) : outcome pyval :=
  match v with
  | PDict d => match dict_get k d with
               | Some x => Ok x
               | None => Ok PNone
               end
  | _ => Raise AttributeError
  end.

(** ** YAML documents

    The representation graph of a document.  The plain constructors are the
    nodes carrying the tags of the core schema ([!!null], [!!bool], [!!int],
    [!!float], [!!str], [!!seq], [!!map]); [YTag] is a node carrying any
    other tag. *)

Inductive yaml : Type :=
| YNull
| YBool (b : bool)
| YInt (z : Z)
| YFloat (f : float)
| YStr (s : string)
| YSeq (items : list yaml)
| YMap (entries : list (string * yaml))
| YTag (tag : string) (body : yaml).

Definition python_tuple_tag : string := "tag:yaml.org,2002:python/tuple".

(** [yaml.dump]: the representer of the full [Dumper].  A tuple is written
    as a sequence tagged [!!python/tuple]; the items of a mapping are
    sorted by key. *)
Fixpoint represent (v : pyval) : yaml :=
  match v with
  | PNone => YNull
  | PBool b => YBool b
  | PInt z => YInt z
  | PFloat f => YFloat f
  | PStr s => YStr s
  | PList l => YSeq (map represent l)
  | PTuple l => YTag python_tuple_tag (YSeq (map represent l))
  | PDict d => YMap (sorted_items (map (fun kv => (fst kv, represent (snd kv))) d))
  end.

(** [yaml.safe_load] on a document: the [SafeConstructor] knows the core
    tags only and raises a [ConstructorError] on any other. *)
Fixpoint construct (y : yaml) : outcome pyval :=
  match y with
  | YNull => Ok PNone
  | YBool b => Ok (PBool b)
  | YInt z => Ok (PInt z)
  | YFloat f => Ok (PFloat f)
  | YStr s => Ok (PStr s)
  | YSeq items =>
      (l <- (fix all (ys : list yaml) : outcome (list pyval) :=
               match ys with
               | [] => Ok []
               | y' :: r => (v <- construct y' ;; vs <- all r ;; Ok (v :: vs))%outcome
               end) items ;;
       Ok (PList l))%outcome
  | YMap entries =>
      (l <- (fix all (es : list (string * yaml)) : outcome (list (string * pyval)) :=
               match es with
               | [] => Ok []
               | (k, y') :: r => (v <- construct y' ;; vs <- all r ;; Ok ((k, v) :: vs))%outcome
               end) entries ;;
       Ok (PDict (dict_of_items l)))%outcome
  | YTag _ _ => Raise YAMLError
  end.

(** What the backing file holds when it exists. *)
Inductive content : Type :=
| Garbled              (* text the YAML scanner or parser rejects *)
| Doc (y : yaml).      (* one document; the empty file is [Doc YNull] *)

Definition safe_load (c : content) : outcome pyval :=
  match c with
  | Garbled => Raise YAMLError
  | Doc y => construct y
  end.

(** ** The dataclasses

    Python does not check a field's annotation, so every field holds an
    arbitrary value; the annotation is recalled next to it. *)

Record CityBounds : Type := {
  min_lat : pyval;        (* float *)
  max_lat : pyval;        (* float *)
  min_lon : pyval;        (* float *)
  max_lon : pyval;        (* float *)
  center_lat : pyval;     (* float *)
  center_lon : pyval;     (* float *)
  grid_spacing : pyval    (* float = 0.005 *)
}.

Record CityDemographics : Type := {
  typical_population_range : pyval;   (* Tuple[int, int] *)
  typical_income_range : pyval;       (* Tuple[int, int] *)
  typical_age_range : pyval;          (* Tuple[float, float] *)
  population_density_factor : pyval   (* float = 1.0 *)
}.

Record CityMarketData : Type := {
  state_code : pyval;              (* str *)
  county_name : pyval;             (* str *)
  city_name_variations : pyval;    (* List[str] *)
  rental_api_city_name : pyval;    (* str *)
  major_universities : pyval;      (* List[str] *)
  major_employers : pyval          (* List[str] *)
}.

Record CityCompetitorData : Type := {
  primary_competitor : pyval;             (* str *)
  competitor_search_terms : pyval;        (* List[str] *)
  market_saturation_factor : pyval;       (* float *)
  fast_casual_preference_score : pyval    (* float *)
}.

Record CityConfiguration : Type := {
  city_id : pyval;          (* str *)
  display_name : pyval;     (* str *)
  bounds : CityBounds;
  demographics : CityDemographics;
  market_data : CityMarketData;
  competitor_data : CityCompetitorData
}.

(** *** Keyword construction: a class called with an unpacked mapping *)

(** The argument of [**] has to be a mapping. *)
Definition kwargs (v : pyval) : outcome (dict pyval) :=
  match v with
  | PDict d => Ok d
  | _ => Raise TypeError
  end.

(** The generated [__init__] raises [TypeError] on a keyword that names no
    field and on a field without default that gets no value. *)
Definition bind_fields (required optional : list string) (kw : dict pyval) : outcome unit :=
  if forallb (fun k => existsb (String.eqb k) (required ++ optional)) (dict_keys kw)
     && forallb (fun k => dict_mem k kw) required
  then Ok tt
  else Raise TypeError.

Definition field (kw : dict pyval) (name : string) (default : pyval) : pyval :=
  match dict_get name kw with
  | Some v => v
  | None => default
  end.

Definition CityBounds_init (kw : dict pyval) : outcome CityBounds :=
  (_ <- bind_fields ["min_lat"; "max_lat"; "min_lon"; "max_lon"; "center_lat"; "center_lon"]
                    ["grid_spacing"] kw ;;
   Ok {| min_lat := field kw "min_lat" PNone;
         max_lat := field kw "max_lat" PNone;
         min_lon := field kw "min_lon" PNone;
         max_lon := field kw "max_lon" PNone;
         center_lat := field kw "center_lat" PNone;
         center_lon := field kw "center_lon" PNone;
         grid_spacing := field kw "grid_spacing" (PFloat 0.005) |})%outcome.

Definition CityDemographics_init (kw : dict pyval) : outcome CityDemographics :=
  (_ <- bind_fields ["typical_population_range"; "typical_income_range"; "typical_age_range"]
                    ["population_density_factor"] kw ;;
   Ok {| typical_population_range := field kw "typical_population_range" PNone;
         typical_income_range := field kw "typical_income_range" PNone;
         typical_age_range := field kw "typical_age_range" PNone;
         population_density_factor := field kw "population_density_factor" (PFloat 1.0) |})%outcome.

Definition CityMarketData_init (kw : dict pyval) : outcome CityMarketData :=
  (_ <- bind_fields ["state_code"; "county_name"; "city_name_variations";
                     "rental_api_city_name"; "major_universities"; "major_employers"]
                    [] kw ;;
   Ok {| state_code := field kw "state_code" PNone;
         county_name := field kw "county_name" PNone;
         city_name_variations := field kw "city_name_variations" PNone;
         rental_api_city_name := field kw "rental_api_city_name" PNone;
         major_universities := field kw "major_universities" PNone;
         major_employers := field kw "major_employers" PNone |})%outcome.

Definition CityCompetitorData_init (kw : dict pyval) : outcome CityCompetitorData :=
  (_ <- bind_fields ["primary_competitor"; "competitor_search_terms";
                     "market_saturation_factor"; "fast_casual_preference_score"]
                    [] kw ;;
   Ok {| primary_competitor := field kw "primary_competitor" PNone;
         competitor_search_terms := field kw "competitor_search_terms" PNone;
         market_saturation_factor := field kw "market_saturation_factor" PNone;
         fast_casual_preference_score := field kw "fast_casual_preference_score" PNone |})%outcome.

(** *** [asdict] on each class: a new [dict] per dataclass, the fields in
    declaration order, lists and tuples copied as lists and tuples. *)

Definition CityBounds_asdict (b : CityBounds) : pyval :=
  PDict [("min_lat", min_lat b); ("max_lat", max_lat b);
         ("min_lon", min_lon b); ("max_lon", max_lon b);
         ("center_lat", center_lat b); ("center_lon", center_lon b);
         ("grid_spacing", grid_spacing b)].

Definition CityDemographics_asdict (x : CityDemographics) : pyval :=
  PDict [("typical_population_range", typical_population_range x);
         ("typical_income_range", typical_income_range x);
         ("typical_age_range", typical_age_range x);
         ("population_density_factor", population_density_factor x)].

Definition CityMarketData_asdict (x : CityMarketData) : pyval :=
  PDict [("state_code", state_code x); ("county_name", county_name x);
         ("city_name_variations", city_name_variations x);
         ("rental_api_city_name", rental_api_city_name x);
         ("major_universities", major_universities x);
         ("major_employers", major_employers x)].

Definition CityCompetitorData_asdict (x : CityCompetitorData) : pyval :=
  PDict [("primary_competitor", primary_competitor x);
         ("competitor_search_terms", competitor_search_terms x);
         ("market_saturation_factor", market_saturation_factor x);
         ("fast_casual_preference_score", fast_casual_preference_score x)].

(** [CityConfiguration.to_dict] *)
Definition to_dict (c : CityConfiguration) : pyval :=
  PDict [("city_id", city_id c); ("display_name", display_name c);
         ("bounds", CityBounds_asdict (bounds c));
         ("demographics", CityDemographics_asdict (demographics c));
         ("market_data", CityMarketData_asdict (market_data c));
         ("competitor_data", CityCompetitorData_asdict (competitor_data c))].

(** [CityConfiguration.from_dict] *)
Definition from_dict (data : pyval) : outcome CityConfiguration :=
  (cid <- py_getitem data "city_id" ;;
   name <- py_getitem data "display_name" ;;
   b <- (v <- py_getitem data "bounds" ;; kw <- kwargs v ;; CityBounds_init kw) ;;
   dm <- (v <- py_getitem data "demographics" ;; kw <- kwargs v ;; CityDemographics_init kw) ;;
   md <- (v <- py_getitem data "market_data" ;; kw <- kwargs v ;; CityMarketData_init kw) ;;
   cd <- (v <- py_getitem data "competitor_data" ;; kw <- kwargs v ;; CityCompetitorData_init kw) ;;
   Ok {| city_id := cid; display_name := name; bounds := b;
         demographics := dm; market_data := md; competitor_data := cd |})%outcome.

(** ** [numpy.arange] on binary64 floats

    [arange(start, stop, step)] has [ceil((stop - start) / step)] elements,
    the quotient being computed in floating point.  The first two elements
    are [start] and [start + step]; the filling loop then writes
    [start + i * delta] at every index [i >= 2], with [delta] the difference
    of the first two elements. *)

(** The ceiling of a float; [None] for a [nan] or an infinity and for a value
    outside the range of an array length ([arange] raises in both cases). *)
Definition ceil_to_intp (x : float) : option Z :=
  match Prim2SF x with
  | SpecFloat.S754_zero _ => Some 0%Z
  | SpecFloat.S754_finite s m e =>
      let v := if s then Z.neg m else Z.pos m in
      let c := if (0 <=? e)%Z then (v * 2 ^ e)%Z else (- ((- v) / 2 ^ (- e)))%Z in
      if ((- 2 ^ 63 <=? c) && (c <? 2 ^ 63))%Z then Some c else None
  | _ => None
  end.

(** The array index [i] as a double. *)
Definition float_of_index (i : nat) : float :=
  PrimFloat.of_uint63 (Uint63.of_Z (Z.of_nat i)).

Definition arange_fill (start delta : float) (from count : nat) : list float :=
  map (fun i => (start + float_of_index i * delta)%float) (seq from count).

Definition arange (start stop step : float) : option (list float) :=
  match ceil_to_intp ((stop - start) / step)%float with
  | None => None
  | Some len =>
      let next := (start + step)%float in
      match Z.to_nat len with
      | O => Some []
      | S O => Some [start]
      | S (S n) => Some (start :: next :: arange_fill start (next - start)%float 2 n)
      end
  end.

(** A Python number as a double.  Integers are taken up to [2^53], where
    the conversion is exact. *)
Definition as_double (v : pyval) : option float :=
  match v with
  | PFloat f => Some f
  | PInt z =>
      if (Z.abs z <=? 2 ^ 53)%Z then
        let a := PrimFloat.of_uint63 (Uint63.of_Z (Z.abs z)) in
        Some (if (z <? 0)%Z then (- a)%float else a)
      else None
  | _ => None
  end.

Definition is_float (v : pyval) : bool :=
  match v with
  | PFloat _ => true
  | _ => false
  end.

(** [np.arange(start, stop, step)] on field values.  [Some l]: the array
    numpy returns when the three arguments are numbers and one of them at
    least is a float (the result is then of type float64).  [None]: every
    other case, which this development does not describe: numpy raises, or
    all three arguments are integers and the array is an integer one. *)
Definition np_arange (start stop step : pyval) : option (list float) :=
  if is_float start || is_float stop || is_float step then
    match as_double start, as_double stop, as_double step with
    | Some a, Some b, Some c => arange a b c
    | _, _, _ => None
    end
  else None.

(** [CityBounds.get_grid_points] *)
Definition get_grid_points (b : CityBounds) : option (list (float * float)) :=
  match np_arange (min_lat b) (max_lat b) (grid_spacing b),
        np_arange (min_lon b) (max_lon b) (grid_spacing b) with
  | Some lats, Some lons =>
      Some (flat_map (fun lat => map (fun lon => (lat, lon)) lons) lats)
  | _, _ => None
  end.

(** ** [CityConfigManager]

    The object holds [configs] and [current_city]; [config_file] names the
    one backing file, whose state is the [disk].  [data.get('current_city')]
    may be any value, so [current_city] is a [pyval], [PNone] when unset. *)

Record CityConfigManager : Type := {
  configs : dict CityConfiguration;
  current_city : pyval
}.

Record disk : Type := {
  file : option content;    (* [None]: no file at [config_file] *)
  writable : bool           (* whether [open(config_file, 'w')] succeeds *)
}.

(** A method runs on the object and the disk and either returns or raises;
    what it changed before raising stays changed. *)
Definition method (A : Type) : Type :=
  CityConfigManager -> disk -> outcome A * CityConfigManager * disk.

Definition ret {A : Type} (a : A) : method A :=
  fun self d => (Ok a, self, d).

Definition bind {A B : Type} (m : method A) (f : A -> method B) : method B :=
  fun self d =>
    match m self d with
    | (Ok a, self', d') => f a self' d'
    | (Raise e, self', d') => (Raise e, self', d')
    end.

Definition lift {A : Type} (o : outcome A) : method A :=
  fun self d => (o, self, d).

(** [try: body except Exception: handler] *)
Definition try_except {A : Type} (body : method A) (handler : exn -> method A) : method A :=
  fun self d =>
    match body self d with
    | (Ok a, self', d') => (Ok a, self', d')
    | (Raise e, self', d') => handler e self' d'
    end.

Declare Scope method_scope.
Delimit Scope method_scope with method.
Notation "x <- c1 ;; c2" := (bind c1 (fun x => c2))
  (at level 61, c1 at next level, right associativity) : method_scope.
Notation "c1 ;; c2" := (bind c1 (fun _ => c2))
  (at level 61, right associativity) : method_scope.

Definition get_configs : method (dict CityConfiguration) :=
  fun self d => (Ok (configs self), self, d).

Definition set_configs (c : dict CityConfiguration) : method unit :=
  fun self d => (Ok tt, {| configs := c; current_city := current_city self |}, d).

Definition get_current_city : method pyval :=
  fun self d => (Ok (current_city self), self, d).

Definition set_current (v : pyval) : method unit :=
  fun self d => (Ok tt, {| configs := configs self; current_city := v |}, d).

(** [os.path.exists(self.config_file)] *)
Definition path_exists : method bool :=
  fun self d => (Ok (match file d with Some _ => true | None => false end), self, d).

(** [open(self.config_file, 'r')] and reading it *)
Definition read_file : method content :=
  fun self d =>
    match file d with
    | Some c => (Ok c, self, d)
    | None => (Raise OSError, self, d)
    end.

(** [open(self.config_file, 'w')] and writing one document: the file is
    truncated and holds that document afterwards. *)
Definition write_file (y : yaml) : method unit :=
  fun self d =>
    if writable d
    then (Ok tt, self, {| file := Some (Doc y); writable := writable d |})
    else (Raise OSError, self, d).

Fixpoint for_each {A : Type} (l : list A) (body : A -> method unit) : method unit :=
  match l with
  | [] => ret tt
  | x :: r => (body x ;; for_each r body)%method
  end.

(** The dictionary [save_configs] dumps. *)
Definition save_data (self : CityConfigManager) : pyval :=
  PDict [("current_city", current_city self);
         ("cities", PDict (map (fun kv => (fst kv, to_dict (snd kv))) (configs self)))].

Definition save_configs : method unit :=
  fun self d => write_file (represent (save_data self)) self d.

(** *** The built-in configurations *)

Definition strs (l : list string) : pyval := PList (map PStr l).

Definition pair_of (a b : Z) : pyval := PTuple [PInt a; PInt b].

Definition default_search_terms : pyval :=
  strs ["mcdonalds"; "kfc"; "taco bell"; "burger king"; "subway"; "wendys"; "popeyes"].

Definition grand_forks : CityConfiguration :=
  {| city_id := PStr "grand_forks_nd";
     display_name := PStr "Grand Forks, ND";
     bounds :=
       {| min_lat := PFloat 47.85; max_lat := PFloat 47.95;
          min_lon := PFloat (-97.15); max_lon := PFloat (-97.0);
          center_lat := PFloat 47.9; center_lon := PFloat (-97.075);
          grid_spacing := PFloat 0.005 |};
     demographics :=
       {| typical_population_range := pair_of 3000 12000;
          typical_income_range := pair_of 35000 70000;
          typical_age_range := pair_of 22 45;
          population_density_factor := PFloat 1.0 |};
     market_data :=
       {| state_code := PStr "ND";
          county_name := PStr "Grand Forks County";
          city_name_variations := strs ["Grand Forks"; "Grand Forks ND"];
          rental_api_city_name := PStr "Grand Forks";
          major_universities := strs ["University of North Dakota"];
          major_employers := strs ["University of North Dakota"; "Altru Health System"] |};
     competitor_data :=
       {| primary_competitor := PStr "chick-fil-a";
          competitor_search_terms := default_search_terms;
          market_saturation_factor := PFloat 0.7;
          fast_casual_preference_score := PFloat 0.8 |} |}.

Definition fargo : CityConfiguration :=
  {| city_id := PStr "fargo_nd";
     display_name := PStr "Fargo, ND";
     bounds :=
       {| min_lat := PFloat 46.8; max_lat := PFloat 46.95;
          min_lon := PFloat (-96.9); max_lon := PFloat (-96.7);
          center_lat := PFloat 46.875; center_lon := PFloat (-96.8);
          grid_spacing := PFloat 0.005 |};
     demographics :=
       {| typical_population_range := pair_of 5000 18000;
          typical_income_range := pair_of 40000 80000;
          typical_age_range := pair_of 25 40;
          population_density_factor := PFloat 1.2 |};
     market_data :=
       {| state_code := PStr "ND";
          county_name := PStr "Cass County";
          city_name_variations := strs ["Fargo"; "Fargo ND"];
          rental_api_city_name := PStr "Fargo";
          major_universities := strs ["North Dakota State University"];
          major_employers :=
            strs ["Sanford Health"; "Microsoft"; "North Dakota State University"] |};
     competitor_data :=
       {| primary_competitor := PStr "chick-fil-a";
          competitor_search_terms := default_search_terms;
          market_saturation_factor := PFloat 0.9;
          fast_casual_preference_score := PFloat 0.85 |} |}.

Definition bismarck : CityConfiguration :=
  {| city_id := PStr "bismarck_nd";
     display_name := PStr "Bismarck, ND";
     bounds :=
       {| min_lat := PFloat 46.75; max_lat := PFloat 46.85;
          min_lon := PFloat (-100.85); max_lon := PFloat (-100.7);
          center_lat := PFloat 46.8; center_lon := PFloat (-100.775);
          grid_spacing := PFloat 0.005 |};
     demographics :=
       {| typical_population_range := pair_of 4000 15000;
          typical_income_range := pair_of 45000 85000;
          typical_age_range := pair_of 28 45;
          population_density_factor := PFloat 1.1 |};
     market_data :=
       {| state_code := PStr "ND";
          county_name := PStr "Burleigh County";
          city_name_variations := strs ["Bismarck"; "Bismarck ND"];
          rental_api_city_name := PStr "Bismarck";
          major_universities := strs ["University of Mary"; "Bismarck State College"];
          major_employers :=
            strs ["State of North Dakota"; "Sanford Health"; "Basin Electric"] |};
     competitor_data :=
       {| primary_competitor := PStr "chick-fil-a";
          competitor_search_terms := default_search_terms;
          market_saturation_factor := PFloat 0.8;
          fast_casual_preference_score := PFloat 0.75 |} |}.

Definition default_configs : dict CityConfiguration :=
  [("grand_forks_nd", grand_forks); ("fargo_nd", fargo); ("bismarck_nd", bismarck)].

(** *** The methods *)

Definition _create_default_configs : method unit :=
  (set_configs default_configs ;;
   set_current (PStr "grand_forks_nd") ;;
   save_configs)%method.

Definition load_configs : method unit :=
  (found <- path_exists ;;
   if found : bool then
     try_except
       (c <- read_file ;;
        data <- lift (safe_load c) ;;
        cities <- lift (py_getitem data "cities") ;;
        items <- lift (py_items cities) ;;
        for_each items (fun kv =>
          cfg <- lift (from_dict (snd kv)) ;;
          cs <- get_configs ;;
          set_configs (dict_set (fst kv) cfg cs)) ;;
        cur <- lift (py_get data "current_city") ;;
        set_current cur)
       (fun _ => _create_default_configs)
   else _create_default_configs)%method.

(** [CityConfigManager(config_file)]: a fresh object, then [load_configs]. *)
Definition fresh : CityConfigManager := {| configs := []; current_city := PNone |}.

Definition new_manager (d : disk) : outcome unit * CityConfigManager * disk :=
  load_configs fresh d.

Definition set_current_city (city_id : string) : method bool :=
  (cs <- get_configs ;;
   if dict_mem city_id cs then
     set_current (PStr city_id) ;;
     save_configs ;;
     ret true
   else ret false)%method.

Definition get_config (city_id : string) (self : CityConfigManager) : option CityConfiguration :=
  dict_get city_id (configs self).

Definition list_cities (self : CityConfigManager) : list string :=
  dict_keys (configs self).

(** [add_city].  The key is [config.city_id]; the keys of this development
    are strings, so the method is described for a [city_id] that is a
    string.  A list or a dictionary is unhashable and raises [TypeError];
    the other values are hashable in Python and are not described here:
    every statement below about [add_city] assumes a string. *)
Definition add_city (config : CityConfiguration) : method unit :=
  match city_id config with
  | PStr k =>
      (cs <- get_configs ;;
       set_configs (dict_set k config cs) ;;
       save_configs)%method
  | _ => lift (Raise TypeError)
  end.

Definition remove_city (city_id : string) : method bool :=
  (cs <- get_configs ;;
   if dict_mem city_id cs then
     set_configs (dict_del city_id cs) ;;
     cur <- get_current_city ;;
     (if py_eq_str cur city_id then
        cs' <- get_configs ;;
        set_current (match dict_first_key cs' with
                     | Some k => PStr k
                     | None => PNone
                     end)
      else ret tt) ;;
     save_configs ;;
     ret true
   else ret false)%method.

(** ** Notions used in the statements *)

(** The store the built-in configurations make. *)
Definition seeded : CityConfigManager :=
  {| configs := default_configs; current_city := PStr "grand_forks_nd" |}.

(** What [save_configs] leaves in the file. *)
Definition saved (self : CityConfigManager) : content :=
  Doc (represent (save_data self)).

(** The data model of the store: [current_city] is unset or a key. *)
Definition valid_store (self : CityConfigManager) : Prop :=
  current_city self = PNone \/
  exists k, current_city self = PStr k /\ dict_mem k (configs self) = true.

(** The [try] block of [load_configs] as a function of the file content and
    of the configurations the object already holds (see [load_configs_eq]). *)
Fixpoint load_items (items : list (string * pyval)) (cs : dict CityConfiguration)
  : outcome (dict CityConfiguration) :=
  match items with
  | [] => Ok cs
  | (k, v) :: r => (cfg <- from_dict v ;; load_items r (dict_set k cfg cs))%outcome
  end.

Definition try_block (c : content) (cs : dict CityConfiguration) : outcome CityConfigManager :=
  (data <- safe_load c ;;
   cities <- py_getitem data "cities" ;;
   items <- py_items cities ;;
   cs' <- load_items items cs ;;
   cur <- py_get data "current_city" ;;
   Ok {| configs := cs'; current_city := cur |})%outcome.

(** [_create_default_configs] as a function of the disk. *)
Definition seed (d : disk) : outcome unit * CityConfigManager * disk :=
  if writable d
  then (Ok tt, seeded, {| file := Some (saved seeded); writable := writable d |})
  else (Raise OSError, seeded, d).

(** The keys [from_dict] reads and the fields without default of the four
    nested dataclasses. *)
Definition record_fields : list string :=
  ["city_id"; "display_name"; "bounds"; "demographics"; "market_data"; "competitor_data"].

Definition required_fields : list (string * list string) :=
  [("bounds", ["min_lat"; "max_lat"; "min_lon"; "max_lon"; "center_lat"; "center_lon"]);
   ("demographics",
    ["typical_population_range"; "typical_income_range"; "typical_age_range"]);
   ("market_data",
    ["state_code"; "county_name"; "city_name_variations"; "rental_api_city_name";
     "major_universities"; "major_employers"]);
   ("competitor_data",
    ["primary_competitor"; "competitor_search_terms"; "market_saturation_factor";
     "fast_casual_preference_score"])].

(** A city record that misses a required field, at the top or in a part. *)
Inductive lacks_field : pyval -> Prop :=
| lacks_key (rec : dict pyval) (name : string) :
    In name record_fields -> dict_get name rec = None -> lacks_field (PDict rec)
| lacks_part_field (rec : dict pyval) (part : string) (req : list string)
                   (kw : dict pyval) (name : string) :
    In (part, req) required_fields ->
    dict_get part rec = Some (PDict kw) ->
    In name req -> dict_get name kw = None -> lacks_field (PDict rec).

(** The three conditions of the file under which [load_configs] seeds the
    defaults: no file, content that does not parse, a document that misses
    a required field ([cities] itself, or a field of one of its records). *)
Inductive unusable : option content -> Prop :=
| unusable_missing : unusable None
| unusable_garbled : unusable (Some Garbled)
| unusable_no_cities (y : yaml) (top : dict pyval) :
    construct y = Ok (PDict top) -> dict_get "cities" top = None ->
    unusable (Some (Doc y))
| unusable_record (y : yaml) (top cities : dict pyval) (k : string) (rec : pyval) :
    construct y = Ok (PDict top) -> dict_get "cities" top = Some (PDict cities) ->
    In (k, rec) cities -> lacks_field rec ->
    unusable (Some (Doc y)).



(** Values the [SafeLoader] reads back as they were written: no tuple, and
    no dictionary (whose items [yaml.dump] reorders). *)
Fixpoint plain (v : pyval) : bool :=
  match v with
  | PList l => forallb plain l
  | PTuple _ => false
  | PDict _ => false
  | _ => true
  end.

Definition plain_bounds (b : CityBounds) : bool :=
  plain (min_lat b) && plain (max_lat b) && plain (min_lon b) && plain (max_lon b)
  && plain (center_lat b) && plain (center_lon b) && plain (grid_spacing b).

Definition plain_demographics (x : CityDemographics) : bool :=
  plain (typical_population_range x) && plain (typical_income_range x)
  && plain (typical_age_range x) && plain (population_density_factor x).

Definition plain_market_data (x : CityMarketData) : bool :=
  plain (state_code x) && plain (county_name x) && plain (city_name_variations x)
  && plain (rental_api_city_name x) && plain (major_universities x)
  && plain (major_employers x).

Definition plain_competitor_data (x : CityCompetitorData) : bool :=
  plain (primary_competitor x) && plain (competitor_search_terms x)
  && plain (market_saturation_factor x) && plain (fast_casual_preference_score x).

Definition plain_config (c : CityConfiguration) : bool :=
  plain (city_id c) && plain (display_name c) && plain_bounds (bounds c)
  && plain_demographics (demographics c) && plain_market_data (market_data c)
  && plain_competitor_data (competitor_data c).

(** The bounds of the grid example: a box of side 0.02 sampled every 0.01. *)
Definition unit_box : CityBounds :=
  {| min_lat := PFloat 0; max_lat := PFloat 0.02;
     min_lon := PFloat 0; max_lon := PFloat 0.02;
     center_lat := PFloat 0.01; center_lon := PFloat 0.01;
     grid_spacing := PFloat 0.01 |}.




(** A second configuration filed under ["fargo_nd"], with other values. *)
Definition fargo_moorhead : CityConfiguration :=
  {| city_id := PStr "fargo_nd";
     display_name := PStr "Fargo-Moorhead";
     bounds := bounds bismarck;
     demographics := demographics grand_forks;
     market_data := market_data fargo;
     competitor_data := competitor_data bismarck |}.

(** Fargo as a hand-written file gives it: the ranges are YAML sequences,
    which load as lists. *)
Definition fargo_lists : CityConfiguration :=
  {| city_id := city_id fargo;
     display_name := display_name fargo;
     bounds := bounds fargo;
     demographics :=
       {| typical_population_range := PList [PInt 5000; PInt 18000];
          typical_income_range := PList [PInt 40000; PInt 80000];
          typical_age_range := PList [PInt 25; PInt 40];
          population_density_factor := PFloat 1.2 |};
     market_data := market_data fargo;
     competitor_data := competitor_data fargo |}.

Definition listed_store : CityConfigManager :=
  {| configs := [("fargo_nd", fargo_lists)]; current_city := PStr "fargo_nd" |}.



(** The defaults with Fargo selected, as [set_current_city] leaves them. *)
Definition fargo_selected : CityConfigManager :=
  {| configs := default_configs; current_city := PStr "fargo_nd" |}.

(** Induction on values, through the lists and dictionaries they nest. *)
Section pyval_induction.
Variable P : pyval -> Prop.
Hypothesis HNone : P PNone.
Hypothesis HBool : forall b, P (PBool b).
Hypothesis HInt : forall z, P (PInt z).
Hypothesis HFloat : forall f, P (PFloat f).
Hypothesis HStr : forall s, P (PStr s).
Hypothesis HList : forall l, Forall P l -> P (PList l).
Hypothesis HTuple : forall l, Forall P l -> P (PTuple l).
Hypothesis HDict : forall d, Forall (fun kv => P (snd kv)) d -> P (PDict d).

Fixpoint pyval_nested_ind (v : pyval) : P v :=
  match v with
  | PNone => HNone
  | PBool b => HBool b
  | PInt z => HInt z
  | PFloat f => HFloat f
  | PStr s => HStr s
  | PList l =>
      HList l ((fix go (l : list pyval) : Forall P l :=
                  match l with
                  | [] => Forall_nil P
                  | x :: r => Forall_cons x (pyval_nested_ind x) (go r)
                  end) l)
  | PTuple l =>
      HTuple l ((fix go (l : list pyval) : Forall P l :=
                   match l with
                   | [] => Forall_nil P
                   | x :: r => Forall_cons x (pyval_nested_ind x) (go r)
                   end) l)
  | PDict d =>
      HDict d ((fix go (d : list (string * pyval)) : Forall (fun kv => P (snd kv)) d :=
                  match d with
                  | [] => Forall_nil _
                  | kv :: r => Forall_cons kv (pyval_nested_ind (snd kv)) (go r)
                  end) d)
  end.
End pyval_induction.

(** What [yaml.safe_load] gives for a configuration [save_configs] wrote. *)
Definition reloaded (c : CityConfiguration) : pyval :=
  match construct (represent (to_dict c)) with
  | Ok v => v
  | Raise _ => PNone
  end.

(** ** The rest of [city_config.py] *)

(** The truth value of a Python value. *)
Definition truthy (v : pyval) : bool :=
  match v with
  | PNone => false
  | PBool b => b
  | PInt z => negb (z =? 0)%Z
  | PFloat f => negb (f =? 0)%float
  | PStr s => negb (String.eqb s "")
  | PList l => match l with [] => false | _ :: _ => true end
  | PTuple l => match l with [] => false | _ :: _ => true end
  | PDict d => match d with [] => false | _ :: _ => true end
  end.

(** Lists and dictionaries have no hash, nor has a tuple that holds one. *)
Fixpoint hashable (v : pyval) : bool :=
  match v with
  | PList _ => false
  | PDict _ => false
  | PTuple l => forallb hashable l
  | _ => true
  end.

(** [v in d] and [d[v]] for a dictionary with string keys: an unhashable
    [v] raises, a hashable [v] that is not a string equals no key. *)
Definition py_in {V : Type} (v : pyval) (d : dict V) : outcome bool :=
  if hashable v then
    Ok (match v with
        | PStr k => dict_mem k d
        | _ => false
        end)
  else Raise TypeError.

Definition py_subscript {V : Type} (d : dict V) (v : pyval) : outcome V :=
  if hashable v then
    match v with
    | PStr k => match dict_get k d with
                | Some x => Ok x
                | None => Raise KeyError
                end
    | _ => Raise KeyError
    end
  else Raise TypeError.

(** [CityConfigManager.get_current_config] *)
Definition get_current_config (self : CityConfigManager) : outcome (option CityConfiguration) :=
  if truthy (current_city self) then
    (found <- py_in (current_city self) (configs self) ;;
     if found : bool then
       (c <- py_subscript (configs self) (current_city self) ;; Ok (Some c))
     else Ok None)%outcome
  else Ok None.

(** The module-level functions.  Each builds a [CityConfigManager] on the
    backing file, so each takes the disk and gives it back. *)
Module Compat.

Definition get_city_bounds (d : disk) : outcome (pyval * pyval * pyval * pyval) * disk :=
  match new_manager d with
  | (Raise e, _, d') => (Raise e, d')
  | (Ok _, manager, d') =>
      match get_current_config manager with
      | Raise e => (Raise e, d')
      | Ok (Some config) =>
          (Ok (min_lat (bounds config), max_lat (bounds config),
               min_lon (bounds config), max_lon (bounds config)), d')
      | Ok None =>
          (Ok (PFloat 47.85, PFloat 47.95, PFloat (-97.15), PFloat (-97.0)), d')
      end
  end.

(** [None] where [np.arange] is not described (see [np_arange]). *)
Definition get_grid_points (d : disk) : option (outcome (list (float * float)) * disk) :=
  match new_manager d with
  | (Raise e, _, d') => Some (Raise e, d')
  | (Ok _, manager, d') =>
      match get_current_config manager with
      | Raise e => Some (Raise e, d')
      | Ok (Some config) =>
          match get_grid_points (bounds config) with
          | Some g => Some (Ok g, d')
          | None => None
          end
      | Ok None =>
          match get_city_bounds d' with
          | (Raise e, d'') => Some (Raise e, d'')
          | (Ok (lo_lat, hi_lat, lo_lon, hi_lon), d'') =>
              match np_arange lo_lat hi_lat (PFloat 0.005),
                    np_arange lo_lon hi_lon (PFloat 0.005) with
              | Some lats, Some lons =>
                  Some (Ok (flat_map (fun lat => map (fun lon => (lat, lon)) lons) lats), d'')
              | _, _ => None
              end
          end
      end
  end.

Definition get_current_city_name (d : disk) : outcome pyval * disk :=
  match new_manager d with
  | (Raise e, _, d') => (Raise e, d')
  | (Ok _, manager, d') =>
      match get_current_config manager with
      | Raise e => (Raise e, d')
      | Ok (Some config) => (Ok (display_name config), d')
      | Ok None => (Ok (PStr "Grand Forks, ND"), d')
      end
  end.

End Compat.

(** ** [EnhancedDataLoader] of [enhanced_visualization_app.py] *)

(** [os.path.join] of two components, on POSIX. *)
Definition starts_with_slash (s : string) : bool :=
  match s with
  | String c _ => Ascii.eqb c "/"
  | EmptyString => false
  end.

Fixpoint ends_with_slash (s : string) : bool :=
  match s with
  | EmptyString => false
  | String c EmptyString => Ascii.eqb c "/"
  | String _ r => ends_with_slash r
  end.

Definition path_join (a b : string) : string :=
  if starts_with_slash b then b
  else if String.eqb a "" || ends_with_slash a then a ++ b
  else a ++ "/" ++ b.

(** The cache file of a city. *)
Definition processed_data_file (city : string) : string :=
  path_join ("cache_" ++ city) "processed_location_data.pkl".

(** The loop of [get_available_cities]: [present] is [os.path.exists];
    [config.display_name] raises [AttributeError] on [None]. *)
Fixpoint available_loop (manager : CityConfigManager) (present : string -> bool)
         (ids : list string) (available : list pyval) : outcome (list pyval) :=
  match ids with
  | [] => Ok available
  | city :: r =>
      if present (processed_data_file city) then
        match get_config city manager with
        | Some config =>
            available_loop manager present r
              (available ++ [PDict [("city_id", PStr city);
                                    ("display_name", display_name config);
                                    ("file_path", PStr (processed_data_file city))]])
        | None => Raise AttributeError
        end
      else available_loop manager present r available
  end.

Definition get_available_cities (manager : CityConfigManager) (present : string -> bool)
  : outcome (list pyval) :=
  available_loop manager present (list_cities manager) [].

Section DataLoader.
(** The unpickled object is opaque here: what the loader uses of it is its
    truth value and [len(data['df_filtered'])], which may raise. *)
Variable Data : Type.
Variable data_truthy : Data -> bool.
Variable locations : Data -> outcome nat.

(** The cache directories: which paths exist, and what opening and
    unpickling a path gives. *)
Record files : Type := {
  present : string -> bool;
  unpickle : string -> outcome Data
}.

Record EnhancedDataLoader : Type := {
  city_manager : CityConfigManager;
  current_data : option Data;
  current_city_id : option string
}.

Definition cached (self : EnhancedDataLoader) (city : string) : bool :=
  match current_city_id self, current_data self with
  | Some c, Some data => String.eqb city c && data_truthy data
  | _, _ => false
  end.

Definition load_city_data (city : string) (self : EnhancedDataLoader) (fs : files)
  : option Data * EnhancedDataLoader :=
  if cached self city then (current_data self, self)
  else if negb (present fs (processed_data_file city)) then (None, self)
  else
    match unpickle fs (processed_data_file city) with
    | Raise _ => (None, self)
    | Ok data =>
        let self' := {| city_manager := city_manager self;
                        current_data := Some data;
                        current_city_id := Some city |} in
        match locations data with
        | Ok _ => (Some data, self')
        | Raise _ => (None, self')
        end
    end.
End DataLoader.

(** Whether a value holds a tuple. *)
Fixpoint has_tuple (v : pyval) : bool :=
  match v with
  | PTuple _ => true
  | PList l => existsb has_tuple l
  | PDict d => existsb (fun kv => has_tuple (snd kv)) d
  | _ => false
  end.

(** The fields of the four nested dataclasses, with and without default. *)
Definition part_fields : list (string * list string) :=
  [("bounds", ["min_lat"; "max_lat"; "min_lon"; "max_lon"; "center_lat"; "center_lon";
               "grid_spacing"]);
   ("demographics",
    ["typical_population_range"; "typical_income_range"; "typical_age_range";
     "population_density_factor"]);
   ("market_data",
    ["state_code"; "county_name"; "city_name_variations"; "rental_api_city_name";
     "major_universities"; "major_employers"]);
   ("competitor_data",
    ["primary_competitor"; "competitor_search_terms"; "market_saturation_factor";
     "fast_casual_preference_score"])].

(** A record that gives the required fields only. *)
Definition minimal_bounds : dict pyval :=
  [("min_lat", PFloat 46.8); ("max_lat", PFloat 46.95);
   ("min_lon", PFloat (-96.9)); ("max_lon", PFloat (-96.7));
   ("center_lat", PFloat 46.875); ("center_lon", PFloat (-96.8))].

Definition minimal_demographics : dict pyval :=
  [("typical_population_range", PList [PInt 5000; PInt 18000]);
   ("typical_income_range", PList [PInt 40000; PInt 80000]);
   ("typical_age_range", PList [PInt 25; PInt 40])].

Definition minimal_record : dict pyval :=
  [("city_id", PStr "fargo_nd");
   ("display_name", PStr "Fargo, ND");
   ("bounds", PDict minimal_bounds);
   ("demographics", PDict minimal_demographics);
   ("market_data", CityMarketData_asdict (market_data fargo));
   ("competitor_data", CityCompetitorData_asdict (competitor_data fargo))].

(** A store without Fargo, with Bismarck selected. *)
Definition listed_away : CityConfigManager :=
  {| configs := [("grand_forks_nd", grand_forks); ("bismarck_nd", bismarck)];
     current_city := PStr "bismarck_nd" |}.

(** A store with a configuration filed under the empty id. *)
Definition nameless_store : CityConfigManager :=
  {| configs := [("fargo_nd", fargo); ("", bismarck)];
     current_city := PStr "fargo_nd" |}.

(** Induction on documents, through the sequences and mappings they nest. *)
Section yaml_induction.
Variable P : yaml -> Prop.
Hypothesis HNull : P YNull.
Hypothesis HBool : forall b, P (YBool b).
Hypothesis HInt : forall z, P (YInt z).
Hypothesis HFloat : forall f, P (YFloat f).
Hypothesis HStr : forall s, P (YStr s).
Hypothesis HSeq : forall l, Forall P l -> P (YSeq l).
Hypothesis HMap : forall l, Forall (fun e => P (snd e)) l -> P (YMap l).
Hypothesis HTag : forall t y, P y -> P (YTag t y).

Fixpoint yaml_nested_ind (y : yaml) : P y :=
  match y with
  | YNull => HNull
  | YBool b => HBool b
  | YInt z => HInt z
  | YFloat f => HFloat f
  | YStr s => HStr s
  | YSeq l =>
      HSeq l ((fix go (l : list yaml) : Forall P l :=
                 match l with
                 | [] => Forall_nil P
                 | x :: r => Forall_cons x (yaml_nested_ind x) (go r)
                 end) l)
  | YMap l =>
      HMap l ((fix go (l : list (string * yaml)) : Forall (fun e => P (snd e)) l :=
                 match l with
                 | [] => Forall_nil _
                 | e :: r => Forall_cons e (yaml_nested_ind (snd e)) (go r)
                 end) l)
  | YTag t y' => HTag t y' (yaml_nested_ind y')
  end.
End yaml_induction.

(** Whether a store holds a tuple, in [current_city] or in a field. *)
Definition store_has_tuple (self : CityConfigManager) : bool :=
  has_tuple (current_city self)
  || existsb (fun kv => has_tuple (to_dict (snd kv))) (configs self).

(** ** Facts about dictionaries *)

Section PyDictFacts.
Context {V : Type}.
Implicit Types (d : dict V) (k : string) (v : V).

Lemma dict_mem_In k d : dict_mem k d = true <-> In k (dict_keys d).
Proof.
  unfold dict_mem. induction d as [|[k' v'] r IH]; simpl.
  - split; [discriminate | tauto].
  - destruct (String.eqb_spec k' k) as [->|Hne].
    + split; auto.
    + rewrite IH. split; [auto | intros [H|H]; [congruence | exact H]].
Qed.

Lemma dict_mem_false_In k d : dict_mem k d = false <-> ~ In k (dict_keys d).
Proof.
  rewrite <- dict_mem_In. destruct (dict_mem k d); split; congruence.
Qed.

Lemma dict_get_set_same k v d : dict_get k (dict_set k v d) = Some v.
Proof.
  induction d as [|[k' v'] r IH]; simpl.
  - now rewrite String.eqb_refl.
  - destruct (String.eqb_spec k' k) as [->|Hne]; simpl.
    + now rewrite String.eqb_refl.
    + destruct (String.eqb_spec k' k); [congruence | exact IH].
Qed.

Lemma dict_get_set_other k k' v d :
  k <> k' -> dict_get k' (dict_set k v d) = dict_get k' d.
Proof.
  intros Hne. induction d as [|[k0 v0] r IH]; simpl.
  - destruct (String.eqb_spec k k'); [congruence | reflexivity].
  - destruct (String.eqb_spec k0 k) as [->|Hk]; simpl.
    + destruct (String.eqb_spec k k'); [congruence | reflexivity].
    + now rewrite IH.
Qed.

Lemma dict_keys_set k v d :
  dict_keys (dict_set k v d) =
  if dict_mem k d then dict_keys d else dict_keys d ++ [k].
Proof.
  unfold dict_mem. induction d as [|[k0 v0] r IH]; simpl; [reflexivity|].
  destruct (String.eqb_spec k0 k) as [->|Hk]; simpl; [reflexivity|].
  rewrite IH. now destruct (dict_get k r).
Qed.

Lemma dict_wf_set k v d : dict_wf d -> dict_wf (dict_set k v d).
Proof.
  unfold dict_wf. intros Hwf. rewrite dict_keys_set.
  destruct (dict_mem k d) eqn:E; [exact Hwf|].
  apply dict_mem_false_In in E.
  apply NoDup_rev in Hwf. rewrite <- (rev_involutive (dict_keys d ++ [k])).
  apply NoDup_rev. rewrite rev_app_distr. simpl. constructor; [|exact Hwf].
  now rewrite <- in_rev.
Qed.



Lemma dict_mem_del_same k d : dict_mem k (dict_del k d) = false.
Proof.
  apply dict_mem_false_In. unfold dict_del, dict_keys.
  intros Hin. apply in_map_iff in Hin as [[k0 v0] [Hk Hin]].
  apply filter_In in Hin as [_ Hf]. simpl in *. subst.
  now rewrite String.eqb_refl in Hf.
Qed.

Lemma dict_del_absent k d : dict_mem k d = false -> dict_del k d = d.
Proof.
  unfold dict_mem, dict_del. induction d as [|[k0 v0] r IH]; simpl; [reflexivity|].
  destruct (String.eqb_spec k0 k) as [->|Hk]; simpl; [discriminate|].
  intros H. now rewrite IH.
Qed.

Lemma dict_first_key_mem d k : dict_first_key d = Some k -> dict_mem k d = true.
Proof.
  destruct d as [|[k0 v0] r]; simpl; [discriminate|].
  intros [= ->]. unfold dict_mem. simpl. now rewrite String.eqb_refl.
Qed.

End PyDictFacts.

Section PyDictDelete.
Context {V : Type}.
Implicit Types (d : dict V) (k : string).

Lemma dict_get_del_other k k' d :
  k <> k' -> dict_get k' (dict_del k d) = dict_get k' d.
Proof.
  intros Hne. unfold dict_del. induction d as [|[k0 v0] r IH]; simpl; [reflexivity|].
  destruct (String.eqb_spec k0 k) as [->|Hk]; simpl.
  - destruct (String.eqb_spec k k'); [congruence | exact IH].
  - now rewrite IH.
Qed.

Lemma dict_mem_del_other k k' d :
  k <> k' -> dict_mem k' (dict_del k d) = dict_mem k' d.
Proof.
  intros Hne. unfold dict_mem. now rewrite dict_get_del_other.
Qed.

Lemma dict_keys_del k d :
  dict_keys (dict_del k d) = filter (fun k' => negb (String.eqb k' k)) (dict_keys d).
Proof.
  unfold dict_del, dict_keys. induction d as [|[k0 v0] r IH]; simpl; [reflexivity|].
  destruct (String.eqb k0 k); simpl; now rewrite IH.
Qed.

Lemma dict_first_key_find d :
  dict_first_key d = hd_error (dict_keys d).
Proof.
  now destruct d as [|[k0 v0] r].
Qed.
End PyDictDelete.

(** ** The methods, step by step *)

Lemma save_configs_eq (self : CityConfigManager) (d : disk) :
  save_configs self d =
  if writable d
  then (Ok tt, self, {| file := Some (saved self); writable := writable d |})
  else (Raise OSError, self, d).
Proof. reflexivity. Qed.

Ltac run :=
  cbv [set_current_city add_city remove_city _create_default_configs
       bind ret lift get_configs set_configs get_current_city set_current];
  cbn [configs current_city];
  rewrite ?save_configs_eq.

Lemma create_default_configs_eq (self : CityConfigManager) (d : disk) :
  _create_default_configs self d = seed d.
Proof.
  run. cbn [writable]. unfold seed. now destruct (writable d).
Qed.

Lemma py_eq_str_spec (v : pyval) (s : string) :
  py_eq_str v s = true <-> v = PStr s.
Proof.
  destruct v; simpl; try (split; [discriminate | congruence]).
  rewrite String.eqb_eq. split; congruence.
Qed.





(** C10.  Removing the current city makes the first key left, in insertion
    order, the current one (none left: unset).  Removing a known id that
    is not the current city keeps [current_city]; an unknown id returns
    [False] and changes neither the object nor the file. *)
Theorem remove_city_first_remaining (self : CityConfigManager) (d : disk) (city : string) :
  (dict_mem city (configs self) = true -> writable d = true ->
   exists self',
     remove_city city self d =
     (Ok true, self', {| file := Some (saved self'); writable := true |}) /\
     list_cities self' = filter (fun k => negb (String.eqb k city)) (list_cities self) /\
     (current_city self = PStr city ->
      current_city self' =
      match find (fun k => negb (String.eqb k city)) (list_cities self) with
      | Some k => PStr k
      | None => PNone
      end) /\
     (current_city self <> PStr city -> current_city self' = current_city self)) /\
  (dict_mem city (configs self) = false ->
   remove_city city self d = (Ok false, self, d)).
Proof.
  split.
  - intros Hmem Hw. run. rewrite Hmem.
    assert (Hfirst : forall l : list string,
               hd_error (filter (fun k => negb (String.eqb k city)) l) =
               find (fun k => negb (String.eqb k city)) l).
    { induction l as [|k0 l IH]; simpl; [reflexivity|].
      now destruct (negb (String.eqb k0 city)). }
    destruct (py_eq_str (current_city self) city) eqn:Hcur; run; rewrite Hw;
      eexists; (split; [reflexivity|]); unfold list_cities; cbn [configs current_city];
      (split; [apply dict_keys_del|]); split.
    + intros _. rewrite <- Hfirst, <- dict_keys_del, <- dict_first_key_find.
      reflexivity.
    + intros Hne. apply py_eq_str_spec in Hcur. contradiction.
    + intros Heq. apply py_eq_str_spec in Heq. congruence.
    + reflexivity.
  - intros Hmem. run. now rewrite Hmem.
Qed.

Lemma remove_city_first_remaining_witness :
  (exists self',
     remove_city "grand_forks_nd" seeded {| file := None; writable := true |} =
     (Ok true, self', {| file := Some (saved self'); writable := true |}) /\
     current_city self' = PStr "fargo_nd") /\
  remove_city "nonexistent" seeded {| file := None; writable := true |} =
  (Ok false, seeded, {| file := None; writable := true |}).
Proof.
  split.
  - destruct (proj1 (remove_city_first_remaining seeded
                       {| file := None; writable := true |} "grand_forks_nd")
                eq_refl eq_refl) as (self' & Hrun & _ & Hcur & _).
    exists self'. split; [exact Hrun|]. now rewrite Hcur.
  - apply (proj2 (remove_city_first_remaining seeded
                    {| file := None; writable := true |} "nonexistent")).
    reflexivity.
Defined.




(** ** Loading *)

Lemma obind_ok {A B : Type} (x : outcome A) (f : A -> outcome B) (b : B) :
  obind x f = Ok b -> exists a, x = Ok a /\ f a = Ok b.
Proof.
  destruct x as [a|e]; simpl; [|discriminate]. intros H. now exists a.
Qed.

Lemma py_getitem_ok (v : pyval) (k : string) (x : pyval) :
  py_getitem v k = Ok x -> exists r, v = PDict r /\ dict_get k r = Some x.
Proof.
  destruct v; simpl; try discriminate.
  destruct (dict_get k d) eqn:E; [|discriminate].
  intros [= ->]. now exists d.
Qed.

Lemma kwargs_ok (v : pyval) (kw : dict pyval) : kwargs v = Ok kw -> v = PDict kw.
Proof.
  destruct v; simpl; try discriminate. now intros [= ->].
Qed.

Lemma bind_fields_ok (required optional : list string) (kw : dict pyval) :
  bind_fields required optional kw = Ok tt ->
  forall name, In name required -> dict_get name kw <> None.
Proof.
  unfold bind_fields.
  destruct (forallb _ (dict_keys kw)); simpl; [|discriminate].
  destruct (forallb (fun k => dict_mem k kw) required) eqn:E; [|discriminate].
  intros _ name Hin. rewrite forallb_forall in E. specialize (E name Hin).
  unfold dict_mem in E. now destruct (dict_get name kw).
Qed.

Ltac invert_ok H :=
  let a := fresh "a" in
  let Ha := fresh "Ha" in
  apply obind_ok in H; destruct H as (a & Ha & H).

(** A record [from_dict] converts has every key and every required field. *)
Lemma from_dict_ok_complete (rec : pyval) (c : CityConfiguration) :
  from_dict rec = Ok c -> ~ lacks_field rec.
Proof.
  unfold from_dict. intros H.
  invert_ok H. invert_ok H. invert_ok H. invert_ok H. invert_ok H. invert_ok H.
  clear H.
  invert_ok Ha1. invert_ok Ha1. invert_ok Ha2. invert_ok Ha2.
  invert_ok Ha3. invert_ok Ha3. invert_ok Ha4. invert_ok Ha4.
  unfold CityBounds_init in Ha1. invert_ok Ha1.
  unfold CityDemographics_init in Ha2. invert_ok Ha2.
  unfold CityMarketData_init in Ha3. invert_ok Ha3.
  unfold CityCompetitorData_init in Ha4. invert_ok Ha4.
  repeat match goal with
         | u : unit |- _ => destruct u
         | K : kwargs _ = Ok _ |- _ => apply kwargs_ok in K; subst
         | K : py_getitem _ _ = Ok _ |- _ =>
             let r := fresh "r" in
             let E := fresh "E" in
             apply py_getitem_ok in K; destruct K as (r & E & K);
             try (injection E as <-); subst
         end.
  intros Hl. inversion Hl as [rec' name Hin Hget | rec' part req kw name Hin Hpart Hname Hget];
    subst.
  - simpl in Hin. intuition (subst; congruence).
  - simpl in Hin.
    repeat match goal with
           | K : _ \/ _ |- _ => destruct K as [K|K]
           | K : (_, _) = (_, _) |- _ => injection K as <- <-
           | K : False |- _ => destruct K
           end;
      match goal with
      | K : dict_get ?p _ = Some (PDict kw), K' : dict_get ?p _ = Some (PDict ?kw'),
        B : bind_fields _ _ ?kw' = Ok tt |- _ =>
          rewrite K in K'; injection K' as <-;
          exact (bind_fields_ok _ _ _ B name Hname Hget)
      end.
Qed.

Lemma load_items_ok_all (items : list (string * pyval)) :
  forall cs cs', load_items items cs = Ok cs' ->
  forall k rec, In (k, rec) items -> exists c, from_dict rec = Ok c.
Proof.
  induction items as [|[k0 v0] r IH]; simpl; intros cs cs' H k rec Hin; [contradiction|].
  invert_ok H. destruct Hin as [[= <- <-]|Hin]; [now exists a|].
  now apply (IH _ _ H k rec).
Qed.

(** The loop of [load_configs] is [load_items] on the configurations. *)
Lemma for_each_load_items (items : list (string * pyval)) :
  forall (self : CityConfigManager) (d : disk),
    match load_items items (configs self) with
    | Ok cs =>
        for_each items (fun kv =>
          cfg <- lift (from_dict (snd kv)) ;;
          cs <- get_configs ;;
          set_configs (dict_set (fst kv) cfg cs))%method self d =
        (Ok tt, {| configs := cs; current_city := current_city self |}, d)
    | Raise e =>
        exists self',
        for_each items (fun kv =>
          cfg <- lift (from_dict (snd kv)) ;;
          cs <- get_configs ;;
          set_configs (dict_set (fst kv) cfg cs))%method self d =
        (Raise e, self', d)
    end.
Proof.
  induction items as [|[k v] r IH]; intros self d; simpl.
  - now destruct self.
  - cbv [bind lift get_configs set_configs]. cbn [fst snd].
    destruct (from_dict v) as [cfg|e]; simpl; [|now exists self].
    specialize (IH {| configs := dict_set k cfg (configs self);
                      current_city := current_city self |} d).
    cbn [configs current_city] in IH.
    destruct (load_items r (dict_set k cfg (configs self))) as [cs|e].
    + cbv [bind lift get_configs set_configs] in IH. now rewrite IH.
    + destruct IH as [self' IH]. cbv [bind lift get_configs set_configs] in IH.
      rewrite IH. now exists self'.
Qed.

(** [load_configs] seeds the defaults when there is no file or when the
    [try] block raises, and otherwise leaves what the block computed. *)
Lemma load_configs_eq (self : CityConfigManager) (d : disk) :
  load_configs self d =
  match file d with
  | None => seed d
  | Some c =>
      match try_block c (configs self) with
      | Ok m => (Ok tt, m, d)
      | Raise _ => seed d
      end
  end.
Proof.
  unfold load_configs, try_block.
  set (entry := fun kv : string * pyval =>
                  (cfg <- lift (from_dict (snd kv)) ;;
                   cs <- get_configs ;;
                   set_configs (dict_set (fst kv) cfg cs))%method).
  cbv [bind path_exists try_except read_file]. destruct (file d) as [c|] eqn:Hfile.
  2: apply create_default_configs_eq.
  cbv [lift]. rewrite Hfile. destruct (safe_load c) as [data|e]; simpl.
  2: apply create_default_configs_eq.
  destruct (py_getitem data "cities") as [cities|e]; simpl.
  2: apply create_default_configs_eq.
  destruct (py_items cities) as [items|e]; simpl.
  2: apply create_default_configs_eq.
  pose proof (for_each_load_items items self d) as Hloop. fold entry in Hloop.
  destruct (load_items items (configs self)) as [cs|e]; simpl.
  - rewrite Hloop. destruct (py_get data "current_city") as [cur|e]; simpl.
    + reflexivity.
    + apply create_default_configs_eq.
  - destruct Hloop as [self' Hloop]. rewrite Hloop. apply create_default_configs_eq.
Qed.

Lemma unusable_try_block (c : content) (cs : dict CityConfiguration) :
  unusable (Some c) -> exists e, try_block c cs = Raise e.
Proof.
  intros H. inversion H as [| |y top Hy Hc|y top cities k rec Hy Hc Hin Hl]; subst;
    unfold try_block; simpl.
  - now exists YAMLError.
  - rewrite Hy. simpl. rewrite Hc. now exists KeyError.
  - rewrite Hy. simpl. rewrite Hc. simpl.
    destruct (load_items cities cs) as [cs'|e] eqn:E; simpl; [|now exists e].
    destruct (load_items_ok_all _ _ _ E k rec Hin) as [c Hc'].
    now apply from_dict_ok_complete in Hc'.
Qed.

Lemma load_unusable (self : CityConfigManager) (d : disk) :
  unusable (file d) -> load_configs self d = seed d.
Proof.
  intros H. rewrite load_configs_eq. destruct (file d) as [c|]; [|reflexivity].
  destruct (unusable_try_block c (configs self) H) as [e ->]. reflexivity.
Qed.

Lemma dict_mem_set (k k' : string) (c : CityConfiguration) (cs : dict CityConfiguration) :
  dict_mem k' (dict_set k c cs) = String.eqb k k' || dict_mem k' cs.
Proof.
  unfold dict_mem. destruct (String.eqb_spec k k') as [->|Hne].
  - now rewrite dict_get_set_same.
  - now rewrite dict_get_set_other.
Qed.








Lemma saved_eq (self : CityConfigManager) :
  saved self =
  Doc (YMap
         [("cities",
           YMap (sorted_items
                   (map (fun kv => (fst kv, represent (to_dict (snd kv))))
                        (configs self))));
          ("current_city", represent (current_city self))]).
Proof.
  unfold saved, save_data.
  change (represent (PDict [("current_city", current_city self);
                            ("cities", PDict (map (fun kv => (fst kv, to_dict (snd kv)))
                                                  (configs self)))]))
    with (YMap [("cities",
                 YMap (sorted_items
                         (map (fun kv => (fst kv, represent (snd kv)))
                              (map (fun kv => (fst kv, to_dict (snd kv))) (configs self)))));
                ("current_city", represent (current_city self))]).
  now rewrite map_map.
Qed.



(** C6.  The scenario on the code: without a file, loading gives the three
    built-in cities; [set_current_city "fargo_nd"] returns [True] and writes
    the store; a fresh object on that file then has ["grand_forks_nd"] as
    its current city, because the written document, which tags the tuples
    of the configurations, is rejected by [yaml.safe_load] and the defaults
    are seeded again. *)
Theorem scenario_reloads_defaults :
  exists m1 d1 m2 d2 m3 d3,
    new_manager {| file := None; writable := true |} = (Ok tt, m1, d1) /\
    list_cities m1 = ["grand_forks_nd"; "fargo_nd"; "bismarck_nd"] /\
    set_current_city "fargo_nd" m1 d1 = (Ok true, m2, d2) /\
    current_city m2 = PStr "fargo_nd" /\
    file d2 = Some (saved m2) /\
    safe_load (saved m2) = Raise YAMLError /\
    new_manager d2 = (Ok tt, m3, d3) /\
    current_city m3 = PStr "grand_forks_nd" /\
    file d3 = Some (saved seeded).
Proof.
  exists seeded, {| file := Some (saved seeded); writable := true |}.
  exists fargo_selected, {| file := Some (saved fargo_selected); writable := true |}.
  exists seeded, {| file := Some (saved seeded); writable := true |}.
  repeat split; vm_compute; reflexivity.
Qed.

(** C1.  The round trip on the code, from the valid store that has the
    built-in configurations and Fargo selected: [save_configs] writes it,
    [yaml.safe_load] rejects what was written, and the fresh object holds
    the defaults with ["grand_forks_nd"] selected. *)
Theorem save_then_load_reseeds :
  valid_store fargo_selected /\
  save_configs fargo_selected {| file := None; writable := true |} =
  (Ok tt, fargo_selected, {| file := Some (saved fargo_selected); writable := true |}) /\
  safe_load (saved fargo_selected) = Raise YAMLError /\
  new_manager {| file := Some (saved fargo_selected); writable := true |} =
  (Ok tt, seeded, {| file := Some (saved seeded); writable := true |}) /\
  current_city seeded <> current_city fargo_selected.
Proof.
  split.
  - right. exists "fargo_nd". split; reflexivity.
  - repeat split; try (vm_compute; reflexivity). discriminate.
Qed.

(** ** The grid *)










(** ** The round trip on stores without tuples *)

(** [yaml.safe_load] gives back a plain value as [yaml.dump] was given it. *)
Lemma construct_represent_plain (v : pyval) :
  plain v = true -> construct (represent v) = Ok v.
Proof.
  induction v as [| | | | |l IH|l IH|d IH] using pyval_nested_ind; simpl;
    try reflexivity; try discriminate.
  intros Hl.
  assert (E : (fix all (ys : list yaml) : outcome (list pyval) :=
                 match ys with
                 | [] => Ok []
                 | y' :: r => (v <- construct y' ;; vs <- all r ;; Ok (v :: vs))%outcome
                 end) (map represent l) = Ok l).
  { induction IH as [|x r Hx Hr IHr]; simpl; [reflexivity|].
    simpl in Hl. apply andb_prop in Hl as [Hpx Hpr].
    rewrite (Hx Hpx). simpl. now rewrite (IHr Hpr). }
  now rewrite E.
Qed.

Section SortedItems.
Context {V : Type}.
Implicit Types (d : dict V) (k : string) (kv : string * V).

Lemma insert_item_perm kv d : Permutation (insert_item kv d) (kv :: d).
Proof.
  induction d as [|kv' r IH]; simpl; [reflexivity|].
  destruct (String.leb (fst kv) (fst kv')); [reflexivity|].
  rewrite IH. apply perm_swap.
Qed.

Lemma sorted_items_perm d : Permutation (sorted_items d) d.
Proof.
  induction d as [|kv r IH]; simpl; [reflexivity|].
  rewrite insert_item_perm. now constructor.
Qed.

Lemma sorted_items_keys_perm d : Permutation (dict_keys (sorted_items d)) (dict_keys d).
Proof.
  unfold dict_keys. apply Permutation_map. apply sorted_items_perm.
Qed.

Lemma sorted_items_wf d : dict_wf d -> dict_wf (sorted_items d).
Proof.
  unfold dict_wf. intros H.
  apply (Permutation_NoDup (l := dict_keys d)); [|exact H].
  symmetry. apply sorted_items_keys_perm.
Qed.

Lemma dict_get_insert_item kv d k :
  ~ In (fst kv) (dict_keys d) ->
  dict_get k (insert_item kv d) = dict_get k (kv :: d).
Proof.
  induction d as [|[k' v'] r IH]; simpl; intros Hn; [reflexivity|].
  destruct (String.leb (fst kv) k'); [reflexivity|]. simpl.
  destruct kv as [k0 v0]. simpl in *.
  rewrite IH by tauto. simpl.
  destruct (String.eqb_spec k' k) as [->|H1]; [|reflexivity].
  destruct (String.eqb_spec k0 k) as [->|H2]; [tauto | reflexivity].
Qed.

Lemma dict_get_sorted_items d k :
  dict_wf d -> dict_get k (sorted_items d) = dict_get k d.
Proof.
  unfold dict_wf. induction d as [|[k0 v0] r IH]; simpl; intros Hwf; [reflexivity|].
  inversion Hwf as [|? ? Hn Hr]; subst.
  rewrite dict_get_insert_item.
  - simpl. now rewrite IH.
  - simpl. intros Hin.
    apply (Permutation_in _ (sorted_items_keys_perm r)) in Hin. contradiction.
Qed.

Lemma dict_set_absent k (v : V) d :
  ~ In k (dict_keys d) -> dict_set k v d = d ++ [(k, v)].
Proof.
  induction d as [|[k' v'] r IH]; simpl; intros Hn; [reflexivity|].
  destruct (String.eqb_spec k' k) as [->|Hne]; [tauto|].
  rewrite IH by tauto. reflexivity.
Qed.
End SortedItems.

Lemma sorted_items_map_values {V W : Type} (f : V -> W) (d : dict V) :
  sorted_items (map (fun kv => (fst kv, f (snd kv))) d) =
  map (fun kv => (fst kv, f (snd kv))) (sorted_items d).
Proof.
  induction d as [|kv r IH]; simpl; [reflexivity|]. rewrite IH.
  generalize (sorted_items r) as l. induction l as [|kv' l IHl]; simpl; [reflexivity|].
  destruct (String.leb (fst kv) (fst kv')); simpl; [reflexivity|]. now rewrite IHl.
Qed.

(** A configuration whose fields are plain is written and read back as it
    was: the document [yaml.dump] writes for it constructs, and [from_dict]
    converts what was constructed. *)
Lemma from_dict_reloaded (c : CityConfiguration) :
  plain_config c = true ->
  construct (represent (to_dict c)) = Ok (reloaded c) /\
  from_dict (reloaded c) = Ok c.
Proof.
  destruct c as [cid name [b1 b2 b3 b4 b5 b6 b7] [d1 d2 d3 d4]
                          [m1 m2 m3 m4 m5 m6] [c1 c2 c3 c4]].
  unfold plain_config, plain_bounds, plain_demographics, plain_market_data,
    plain_competitor_data.
  cbn [city_id display_name bounds demographics market_data competitor_data
       min_lat max_lat min_lon max_lon center_lat center_lon grid_spacing
       typical_population_range typical_income_range typical_age_range
       population_density_factor state_code county_name city_name_variations
       rental_api_city_name major_universities major_employers
       primary_competitor competitor_search_terms market_saturation_factor
       fast_casual_preference_score].
  intros H.
  repeat match goal with
         | K : _ && _ = true |- _ => apply andb_prop in K; destruct K
         end.
  repeat match goal with
         | K : plain _ = true |- _ => apply construct_represent_plain in K
         end.
  assert (E : construct (represent (to_dict
                {| city_id := cid; display_name := name;
                   bounds := Build_CityBounds b1 b2 b3 b4 b5 b6 b7;
                   demographics := Build_CityDemographics d1 d2 d3 d4;
                   market_data := Build_CityMarketData m1 m2 m3 m4 m5 m6;
                   competitor_data := Build_CityCompetitorData c1 c2 c3 c4 |})) =
              Ok (PDict
                [("bounds", PDict [("center_lat", b5); ("center_lon", b6);
                                   ("grid_spacing", b7); ("max_lat", b2);
                                   ("max_lon", b4); ("min_lat", b1); ("min_lon", b3)]);
                 ("city_id", cid);
                 ("competitor_data",
                  PDict [("competitor_search_terms", c2);
                         ("fast_casual_preference_score", c4);
                         ("market_saturation_factor", c3);
                         ("primary_competitor", c1)]);
                 ("demographics",
                  PDict [("population_density_factor", d4);
                         ("typical_age_range", d3);
                         ("typical_income_range", d2);
                         ("typical_population_range", d1)]);
                 ("display_name", name);
                 ("market_data",
                  PDict [("city_name_variations", m3); ("county_name", m2);
                         ("major_employers", m6); ("major_universities", m5);
                         ("rental_api_city_name", m4); ("state_code", m1)])])).
  { cbn.
    repeat match goal with
           | K : construct (represent ?x) = Ok ?x |- _ => rewrite K; clear K; cbn
           end.
    reflexivity. }
  unfold reloaded. rewrite E. split; reflexivity.
Qed.

Lemma dict_of_items_wf {V : Type} (l : list (string * V)) :
  dict_wf l -> dict_of_items l = l.
Proof.
  unfold dict_of_items.
  assert (G : forall acc : dict V,
             dict_wf (acc ++ l) ->
             fold_left (fun a kv => dict_set (fst kv) (snd kv) a) l acc = acc ++ l).
  { induction l as [|[k v] r IH]; simpl; intros acc Hwf.
    - now rewrite app_nil_r.
    - rewrite dict_set_absent.
      + rewrite IH; rewrite <- app_assoc; [reflexivity | exact Hwf].
      + unfold dict_wf, dict_keys in Hwf. rewrite map_app in Hwf. simpl in Hwf.
        apply NoDup_remove_2 in Hwf. intros Hin. apply Hwf.
        apply in_or_app. now left. }
  intros Hwf. now apply (G []).
Qed.

Lemma construct_two_entries (k1 k2 : string) (y1 y2 : yaml) (v1 v2 : pyval) :
  construct y1 = Ok v1 -> construct y2 = Ok v2 ->
  construct (YMap [(k1, y1); (k2, y2)]) =
  Ok (PDict (dict_of_items [(k1, v1); (k2, v2)])).
Proof.
  intros H1 H2. simpl. rewrite H1. simpl. rewrite H2. reflexivity.
Qed.

Lemma construct_cities (cs : dict CityConfiguration) :
  forallb (fun kv => plain_config (snd kv)) cs = true ->
  construct (YMap (map (fun kv => (fst kv, represent (to_dict (snd kv)))) cs)) =
  Ok (PDict (dict_of_items (map (fun kv => (fst kv, reloaded (snd kv))) cs))).
Proof.
  intros Hp.
  assert (E : (fix all (es : list (string * yaml)) : outcome (list (string * pyval)) :=
                 match es with
                 | [] => Ok []
                 | (k, y') :: r =>
                     (v <- construct y' ;; vs <- all r ;; Ok ((k, v) :: vs))%outcome
                 end) (map (fun kv => (fst kv, represent (to_dict (snd kv)))) cs) =
              Ok (map (fun kv => (fst kv, reloaded (snd kv))) cs)).
  { induction cs as [|[k c] r IH]; [reflexivity|].
    cbn [forallb snd] in Hp. apply andb_prop in Hp as [Hc Hr].
    cbn [map fst snd]. rewrite (proj1 (from_dict_reloaded c Hc)).
    cbn [obind]. rewrite (IH Hr). reflexivity. }
  simpl. simpl in E. now rewrite E.
Qed.

Lemma load_items_reloaded (cs : dict CityConfiguration) :
  forallb (fun kv => plain_config (snd kv)) cs = true ->
  forall acc, dict_wf (acc ++ cs) ->
  load_items (map (fun kv => (fst kv, reloaded (snd kv))) cs) acc = Ok (acc ++ cs).
Proof.
  induction cs as [|[k c] r IH]; simpl; intros Hp acc Hwf.
  - now rewrite app_nil_r.
  - apply andb_prop in Hp as [Hc Hr].
    rewrite (proj2 (from_dict_reloaded c Hc)). simpl.
    rewrite dict_set_absent.
    + rewrite (IH Hr); rewrite <- app_assoc; [reflexivity | exact Hwf].
    + unfold dict_wf, dict_keys in Hwf. rewrite map_app in Hwf. simpl in Hwf.
      apply NoDup_remove_2 in Hwf. intros Hin. apply Hwf.
      apply in_or_app. now left.
Qed.

Lemma forallb_sorted_items {V : Type} (p : string * V -> bool) (d : dict V) :
  forallb p d = true -> forallb p (sorted_items d) = true.
Proof.
  rewrite !forallb_forall. intros H x Hin. apply H.
  exact (Permutation_in _ (sorted_items_perm d) Hin).
Qed.

(** A store with unique keys, plain configurations and a plain
    [current_city] is read back by a fresh object as it was saved, with the
    keys in sorted order. *)
Lemma save_then_load_plain (self : CityConfigManager) (w : bool) :
  dict_wf (configs self) ->
  forallb (fun kv => plain_config (snd kv)) (configs self) = true ->
  plain (current_city self) = true ->
  new_manager {| file := Some (saved self); writable := w |} =
  (Ok tt,
   {| configs := sorted_items (configs self); current_city := current_city self |},
   {| file := Some (saved self); writable := w |}).
Proof.
  intros Hwf Hp Hcur. unfold new_manager. rewrite load_configs_eq. cbn [file].
  assert (E : try_block (saved self) (configs fresh) =
              Ok {| configs := sorted_items (configs self);
                    current_city := current_city self |}).
  { unfold try_block. rewrite saved_eq. cbn [safe_load].
    rewrite (sorted_items_map_values (fun c => represent (to_dict c))).
    rewrite (construct_two_entries _ _ _ _ _ _
               (construct_cities _ (forallb_sorted_items _ _ Hp))
               (construct_represent_plain _ Hcur)).
    cbn. rewrite dict_of_items_wf.
    - rewrite (load_items_reloaded _ (forallb_sorted_items _ _ Hp) []).
      + reflexivity.
      + now apply sorted_items_wf.
    - unfold dict_wf, dict_keys. rewrite map_map. cbn [fst].
      now apply sorted_items_wf. }
  now rewrite E.
Qed.

(** The same, as the store is observed: same keys, same configuration
    under every key, same [current_city]. *)
Lemma save_then_load_plain_observed (self : CityConfigManager) (w : bool) :
  dict_wf (configs self) ->
  forallb (fun kv => plain_config (snd kv)) (configs self) = true ->
  plain (current_city self) = true ->
  exists m d,
    new_manager {| file := Some (saved self); writable := w |} = (Ok tt, m, d) /\
    Permutation (list_cities m) (list_cities self) /\
    (forall k, get_config k m = get_config k self) /\
    current_city m = current_city self.
Proof.
  intros Hwf Hp Hcur. do 2 eexists.
  split; [now apply save_then_load_plain|].
  unfold list_cities, get_config. cbn [configs current_city].
  split; [apply sorted_items_keys_perm|].
  split; [|reflexivity]. intros k. now apply dict_get_sorted_items.
Qed.

(** ** Further properties: the dataclasses *)

(** X1.  [from_dict] undoes [to_dict] on every configuration, whatever its
    field values: the dictionary [to_dict] builds is converted back to the
    configuration it came from. *)
Theorem from_dict_to_dict (c : CityConfiguration) :
  from_dict (to_dict c) = Ok c.
Proof.
  destruct c as [cid name [b1 b2 b3 b4 b5 b6 b7] [d1 d2 d3 d4]
                          [m1 m2 m3 m4 m5 m6] [c1 c2 c3 c4]].
  reflexivity.
Qed.

(** X2.  [from_dict] reads six keys of the record and nothing else: two
    records that agree on them convert alike, so any other top-level key
    is ignored. *)
Theorem from_dict_reads_six_keys (r1 r2 : dict pyval) :
  (forall name, In name record_fields -> dict_get name r1 = dict_get name r2) ->
  from_dict (PDict r1) = from_dict (PDict r2).
Proof.
  intros H. unfold from_dict, py_getitem.
  rewrite (H "city_id"), (H "display_name"), (H "bounds"), (H "demographics"),
    (H "market_data"), (H "competitor_data"); simpl; tauto.
Qed.

Lemma from_dict_reads_six_keys_witness :
  from_dict (PDict [("notes", PStr "hand-edited"); ("city_id", PStr "x")]) =
  from_dict (PDict [("city_id", PStr "x")]).
Proof.
  apply from_dict_reads_six_keys.
  intros name Hin. simpl in Hin.
  repeat (destruct Hin as [<-|Hin]; [reflexivity|]). destruct Hin.
Defined.

Lemma bind_fields_ok_known (required optional : list string) (kw : dict pyval) :
  bind_fields required optional kw = Ok tt ->
  forall k, In k (dict_keys kw) -> In k (required ++ optional).
Proof.
  unfold bind_fields.
  destruct (forallb _ (dict_keys kw)) eqn:E; simpl; [|discriminate].
  intros _ k Hin. rewrite forallb_forall in E. specialize (E k Hin).
  apply existsb_exists in E as (x & Hx & Heq). apply String.eqb_eq in Heq. now subst.
Qed.

(** X3.  A key that names no field, inside [bounds], [demographics],
    [market_data] or [competitor_data], makes [from_dict] raise: the parts
    are built by keyword and accept their own fields only. *)
Theorem from_dict_rejects_unknown_field (rec kw : dict pyval) (part k : string)
        (fields : list string) :
  In (part, fields) part_fields ->
  dict_get part rec = Some (PDict kw) ->
  In k (dict_keys kw) -> ~ In k fields ->
  exists e, from_dict (PDict rec) = Raise e.
Proof.
  intros Hpart Hget Hk Hnot.
  destruct (from_dict (PDict rec)) as [c|e] eqn:H; [exfalso | now exists e].
  unfold from_dict in H.
  invert_ok H. invert_ok H. invert_ok H. invert_ok H. invert_ok H. invert_ok H.
  clear H.
  invert_ok Ha1. invert_ok Ha1. invert_ok Ha2. invert_ok Ha2.
  invert_ok Ha3. invert_ok Ha3. invert_ok Ha4. invert_ok Ha4.
  unfold CityBounds_init in Ha1. invert_ok Ha1.
  unfold CityDemographics_init in Ha2. invert_ok Ha2.
  unfold CityMarketData_init in Ha3. invert_ok Ha3.
  unfold CityCompetitorData_init in Ha4. invert_ok Ha4.
  repeat match goal with
         | u : unit |- _ => destruct u
         | K : kwargs _ = Ok _ |- _ => apply kwargs_ok in K; subst
         | K : py_getitem _ _ = Ok _ |- _ =>
             let r := fresh "r" in
             let E := fresh "E" in
             apply py_getitem_ok in K; destruct K as (r & E & K);
             try (injection E as <-); subst
         end.
  simpl in Hpart.
  repeat match goal with
         | K : _ \/ _ |- _ => destruct K as [K|K]
         | K : (_, _) = (_, _) |- _ => injection K as <- <-
         | K : False |- _ => destruct K
         end;
    match goal with
    | K : dict_get ?p _ = Some (PDict kw), K' : dict_get ?p _ = Some (PDict ?kw'),
      B : bind_fields _ _ ?kw' = Ok tt |- _ =>
        rewrite K in K'; injection K' as <-;
        exact (Hnot (bind_fields_ok_known _ _ _ B k Hk))
    end.
Qed.

Lemma from_dict_rejects_unknown_field_witness :
  exists e,
    from_dict (PDict [("city_id", PStr "x"); ("display_name", PStr "X");
                      ("bounds", PDict [("min_lat", PFloat 0); ("zoom", PInt 12)])]) =
    Raise e.
Proof.
  apply (from_dict_rejects_unknown_field _ [("min_lat", PFloat 0); ("zoom", PInt 12)]
           "bounds" "zoom"
           ["min_lat"; "max_lat"; "min_lon"; "max_lon"; "center_lat"; "center_lon";
            "grid_spacing"]).
  - simpl. tauto.
  - reflexivity.
  - simpl. tauto.
  - simpl. intuition discriminate.
Defined.

(** X4.  The two fields with a default: a record that [from_dict] converts
    and whose [bounds] give no [grid_spacing] gets 0.005, one whose
    [demographics] give no [population_density_factor] gets 1.0; a value
    that is given is kept. *)
Theorem from_dict_defaults (rec bkw dkw : dict pyval) (c : CityConfiguration) :
  from_dict (PDict rec) = Ok c ->
  dict_get "bounds" rec = Some (PDict bkw) ->
  dict_get "demographics" rec = Some (PDict dkw) ->
  grid_spacing (bounds c) =
    match dict_get "grid_spacing" bkw with Some v => v | None => PFloat 0.005 end /\
  population_density_factor (demographics c) =
    match dict_get "population_density_factor" dkw with
    | Some v => v
    | None => PFloat 1.0
    end.
Proof.
  intros H Hb Hd. unfold from_dict, py_getitem in H. rewrite Hb, Hd in H.
  invert_ok H. invert_ok H. invert_ok H. invert_ok H. invert_ok H. invert_ok H.
  injection H as <-. simpl in Ha1, Ha2.
  unfold CityBounds_init in Ha1. invert_ok Ha1. injection Ha1 as <-.
  unfold CityDemographics_init in Ha2. invert_ok Ha2. injection Ha2 as <-.
  split; reflexivity.
Qed.

Lemma from_dict_defaults_witness :
  exists c,
    from_dict (PDict minimal_record) = Ok c /\
    grid_spacing (bounds c) = PFloat 0.005 /\
    population_density_factor (demographics c) = PFloat 1.0.
Proof.
  destruct (from_dict (PDict minimal_record)) as [c|e] eqn:E;
    [|vm_compute in E; discriminate].
  exists c. split; [reflexivity|].
  exact (from_dict_defaults minimal_record minimal_bounds minimal_demographics c
           E eq_refl eq_refl).
Defined.

(** ** Further properties: the mutating methods *)

Lemma dict_get_mem {V : Type} (k : string) (d : dict V) :
  dict_mem k d = false -> dict_get k d = None.
Proof.
  unfold dict_mem. now destruct (dict_get k d).
Qed.

Lemma dict_del_set_absent {V : Type} (k : string) (v : V) (d : dict V) :
  dict_mem k d = false -> dict_del k (dict_set k v d) = d.
Proof.
  intros Hmem. rewrite dict_set_absent by now apply dict_mem_false_In.
  unfold dict_del. rewrite filter_app. simpl. rewrite String.eqb_refl. simpl.
  rewrite app_nil_r. now apply dict_del_absent.
Qed.

Lemma dict_wf_del {V : Type} (k : string) (d : dict V) :
  dict_wf d -> dict_wf (dict_del k d).
Proof.
  unfold dict_wf. rewrite dict_keys_del. apply NoDup_filter.
Qed.

(** The object [add_city] leaves, whether the save succeeds or not. *)
Lemma add_city_object (c : CityConfiguration) (k : string)
      (self : CityConfigManager) (d : disk) :
  city_id c = PStr k ->
  snd (fst (add_city c self d)) =
  {| configs := dict_set k c (configs self); current_city := current_city self |}.
Proof.
  intros Hk. unfold add_city. rewrite Hk. run. now destruct (writable d).
Qed.

(** The object [remove_city] leaves, whether the save succeeds or not. *)
Lemma remove_city_object (city : string) (self : CityConfigManager) (d : disk) :
  snd (fst (remove_city city self d)) =
  if dict_mem city (configs self) then
    {| configs := dict_del city (configs self);
       current_city :=
         if py_eq_str (current_city self) city then
           match dict_first_key (dict_del city (configs self)) with
           | Some k => PStr k
           | None => PNone
           end
         else current_city self |}
  else self.
Proof.
  run. destruct (dict_mem city (configs self)); [|reflexivity].
  destruct (py_eq_str (current_city self) city); run; now destruct (writable d).
Qed.

(** The object [set_current_city] leaves, whether the save succeeds or not. *)
Lemma set_current_city_object (city : string) (self : CityConfigManager) (d : disk) :
  snd (fst (set_current_city city self d)) =
  if dict_mem city (configs self) then
    {| configs := configs self; current_city := PStr city |}
  else self.
Proof.
  run. destruct (dict_mem city (configs self)); [|reflexivity].
  run. now destruct (writable d).
Qed.

(** X5.  After [add_city], [get_config] gives the added configuration under
    its id and what it gave before under every other id; a new id comes
    last in [list_cities], a known id keeps its place; the current city is
    not touched.  This holds of the object even when the save raises. *)
Theorem add_city_get_config (c : CityConfiguration) (k : string)
        (self : CityConfigManager) (d : disk) :
  city_id c = PStr k ->
  let self' := snd (fst (add_city c self d)) in
  get_config k self' = Some c /\
  (forall k', k' <> k -> get_config k' self' = get_config k' self) /\
  list_cities self' =
    (if dict_mem k (configs self) then list_cities self else list_cities self ++ [k]) /\
  current_city self' = current_city self.
Proof.
  intros Hk. cbv zeta. rewrite (add_city_object c k self d Hk).
  unfold get_config, list_cities. cbn [configs current_city].
  split; [apply dict_get_set_same|].
  split; [intros k' Hne; apply dict_get_set_other; congruence|].
  split; [apply dict_keys_set | reflexivity].
Qed.

Lemma add_city_get_config_witness :
  get_config "fargo_nd"
    (snd (fst (add_city fargo_moorhead seeded {| file := None; writable := true |}))) =
  Some fargo_moorhead.
Proof.
  apply (add_city_get_config fargo_moorhead "fargo_nd" seeded
           {| file := None; writable := true |} eq_refl).
Defined.

(** X6.  After [remove_city], [get_config] gives nothing under the removed
    id and what it gave before under every other id, whether the id was
    known or not and whether the save succeeds or not. *)
Theorem remove_city_get_config (city : string) (self : CityConfigManager) (d : disk) :
  let self' := snd (fst (remove_city city self d)) in
  get_config city self' = None /\
  (forall k', k' <> city -> get_config k' self' = get_config k' self).
Proof.
  cbv zeta. rewrite remove_city_object. unfold get_config.
  destruct (dict_mem city (configs self)) eqn:Hmem; cbn [configs].
  - split.
    + apply dict_get_mem. apply dict_mem_del_same.
    + intros k' Hne. apply dict_get_del_other. congruence.
  - split; [now apply dict_get_mem | reflexivity].
Qed.

(** X7.  Adding a configuration under a new id and removing that id again
    gives back the mapping, in the same order, and the current city, unless
    the current city was that very id. *)
Theorem add_then_remove_city (c : CityConfiguration) (k : string)
        (self : CityConfigManager) (d : disk) :
  city_id c = PStr k ->
  dict_mem k (configs self) = false ->
  current_city self <> PStr k ->
  writable d = true ->
  exists s1 d1 d2,
    add_city c self d = (Ok tt, s1, d1) /\
    remove_city k s1 d1 = (Ok true, self, d2) /\
    file d2 = Some (saved self).
Proof.
  intros Hk Hmem Hcur Hw. destruct self as [cs cur]. cbn [configs current_city] in *.
  unfold add_city. rewrite Hk. run. rewrite Hw.
  do 3 eexists. split; [reflexivity|]. run.
  unfold dict_mem at 1. rewrite dict_get_set_same.
  assert (E : py_eq_str cur k = false).
  { destruct (py_eq_str cur k) eqn:E; [|reflexivity].
    apply py_eq_str_spec in E. contradiction. }
  cbn [configs current_city]. rewrite E. run. cbn [writable]. rewrite (dict_del_set_absent k c _ Hmem).
  split; reflexivity.
Qed.

Lemma add_then_remove_city_witness :
  exists s1 d1 d2,
    add_city fargo_moorhead listed_away {| file := None; writable := true |} =
    (Ok tt, s1, d1) /\
    remove_city "fargo_nd" s1 d1 = (Ok true, listed_away, d2) /\
    file d2 = Some (saved listed_away).
Proof.
  apply (add_then_remove_city fargo_moorhead "fargo_nd" listed_away
           {| file := None; writable := true |}); try reflexivity.
  discriminate.
Defined.

(** X8.  The three mutating methods keep the data model: from a store with
    unique keys whose current city is unset or a key they lead to one, and
    this whether the save succeeds or raises. *)
Theorem mutations_keep_valid_store (self : CityConfigManager) (d : disk) :
  dict_wf (configs self) -> valid_store self ->
  (forall city,
     let self' := snd (fst (set_current_city city self d)) in
     dict_wf (configs self') /\ valid_store self') /\
  (forall c k, city_id c = PStr k ->
     let self' := snd (fst (add_city c self d)) in
     dict_wf (configs self') /\ valid_store self') /\
  (forall city,
     let self' := snd (fst (remove_city city self d)) in
     dict_wf (configs self') /\ valid_store self').
Proof.
  intros Hwf Hvalid. split; [|split].
  - intros city. cbv zeta. rewrite set_current_city_object.
    destruct (dict_mem city (configs self)) eqn:Hmem; [|now split].
    split; [exact Hwf|]. right. now exists city.
  - intros c k Hk. cbv zeta. rewrite (add_city_object c k self d Hk).
    cbn [configs]. split; [now apply dict_wf_set|].
    destruct Hvalid as [Hnone|(k0 & Hcur & Hk0)]; [now left|].
    right. exists k0. cbn [configs current_city]. split; [exact Hcur|].
    rewrite dict_mem_set, Hk0. apply orb_true_r.
  - intros city. cbv zeta. rewrite remove_city_object.
    destruct (dict_mem city (configs self)) eqn:Hmem; [|now split].
    cbn [configs]. split; [now apply dict_wf_del|].
    unfold valid_store. cbn [configs current_city].
    destruct (py_eq_str (current_city self) city) eqn:Hcur.
    + destruct (dict_first_key (dict_del city (configs self))) as [k|] eqn:Hfirst;
        [|now left].
      right. exists k. split; [reflexivity|]. now apply dict_first_key_mem.
    + destruct Hvalid as [Hnone|(k0 & Hk0 & Hin)]; [now left|].
      right. exists k0. split; [exact Hk0|].
      rewrite dict_mem_del_other; [exact Hin|].
      intros ->. rewrite Hk0 in Hcur. simpl in Hcur.
      now rewrite String.eqb_refl in Hcur.
Qed.

Lemma mutations_keep_valid_store_witness :
  valid_store (snd (fst (remove_city "grand_forks_nd" seeded
                           {| file := None; writable := false |}))).
Proof.
  assert (Hwf : dict_wf (configs seeded)).
  { unfold dict_wf. simpl. repeat constructor; simpl; intuition discriminate. }
  assert (Hvalid : valid_store seeded).
  { right. exists "grand_forks_nd". split; reflexivity. }
  exact (proj2 (proj2 (proj2 (mutations_keep_valid_store seeded
                                {| file := None; writable := false |} Hwf Hvalid))
                      "grand_forks_nd")).
Defined.

(** X9.  A save that fails is not undone in memory.  With a file that
    cannot be written, [add_city], [set_current_city] on a known id and
    [remove_city] on a known id raise [OSError] and leave the file as it
    was, while the object already holds the change. *)
Theorem failed_save_keeps_change (self : CityConfigManager) (d : disk) :
  writable d = false ->
  (forall c k, city_id c = PStr k ->
     exists self', add_city c self d = (Raise OSError, self', d) /\
                   get_config k self' = Some c) /\
  (forall city, dict_mem city (configs self) = true ->
     exists self', set_current_city city self d = (Raise OSError, self', d) /\
                   current_city self' = PStr city) /\
  (forall city, dict_mem city (configs self) = true ->
     exists self', remove_city city self d = (Raise OSError, self', d) /\
                   get_config city self' = None).
Proof.
  intros Hw. split; [|split].
  - intros c k Hk. unfold add_city. rewrite Hk. run. rewrite Hw.
    eexists. split; [reflexivity|]. apply dict_get_set_same.
  - intros city Hmem. run. rewrite Hmem. run. rewrite Hw.
    eexists. split; reflexivity.
  - intros city Hmem. run. rewrite Hmem.
    destruct (py_eq_str (current_city self) city); run; rewrite Hw;
      eexists; (split; [reflexivity|]); unfold get_config; cbn [configs];
      apply dict_get_mem; apply dict_mem_del_same.
Qed.

Lemma failed_save_keeps_change_witness :
  exists self',
    set_current_city "fargo_nd" seeded {| file := None; writable := false |} =
    (Raise OSError, self', {| file := None; writable := false |}) /\
    current_city self' = PStr "fargo_nd".
Proof.
  apply (proj1 (proj2 (failed_save_keeps_change seeded
                         {| file := None; writable := false |} eq_refl))).
  reflexivity.
Defined.

(** ** Further properties: [get_current_config] *)

Lemma get_current_config_str (self : CityConfigManager) (k : string) :
  current_city self = PStr k ->
  get_current_config self =
  Ok (if String.eqb k "" then None else dict_get k (configs self)).
Proof.
  intros Hk. unfold get_current_config, py_in, py_subscript, dict_mem. rewrite Hk.
  simpl. destruct (String.eqb k ""); simpl; [reflexivity|].
  now destruct (dict_get k (configs self)).
Qed.

(** X10.  [get_current_config] returns a configuration exactly when
    [current_city] is a non-empty string that is a key, and then the one
    stored under it. *)
Theorem get_current_config_some (self : CityConfigManager) (c : CityConfiguration) :
  get_current_config self = Ok (Some c) <->
  exists k, current_city self = PStr k /\ k <> "" /\ get_config k self = Some c.
Proof.
  split.
  - unfold get_current_config, py_in, py_subscript, get_config.
    destruct (truthy (current_city self)) eqn:Ht; [|discriminate].
    destruct (hashable (current_city self)); [|discriminate].
    destruct (current_city self) as [| | | |k| | |] eqn:Hcur; simpl; try discriminate.
    unfold dict_mem. destruct (dict_get k (configs self)) as [c'|] eqn:Hget;
      simpl; [|discriminate].
    intros [= <-]. exists k. repeat split; [|exact Hget].
    intros ->. discriminate.
  - intros (k & Hcur & Hne & Hget). rewrite (get_current_config_str self k Hcur).
    apply String.eqb_neq in Hne. rewrite Hne. now rewrite <- Hget.
Qed.

(** X11.  [get_current_config] raises only on a [current_city] that is
    true and has no hash (a non-empty list or dictionary, a tuple that
    holds one), and then a [TypeError]; on [None] and on any string it
    returns. *)
Theorem get_current_config_raises (self : CityConfigManager) (e : exn) :
  get_current_config self = Raise e <->
  e = TypeError /\ truthy (current_city self) = true /\
  hashable (current_city self) = false.
Proof.
  unfold get_current_config, py_in, py_subscript.
  destruct (truthy (current_city self)) eqn:Ht.
  - destruct (hashable (current_city self)) eqn:Hh; simpl.
    + split; [|intros (_ & _ & H); discriminate].
      destruct (current_city self) as [| | | |k| | |]; simpl; try discriminate.
      unfold dict_mem. destruct (dict_get k (configs self)); discriminate.
    + split; [intros [= <-]; auto | intros (-> & _ & _); reflexivity].
  - split; [discriminate | intros (_ & H & _); discriminate].
Qed.

(** X12.  An empty city id can be selected but never comes back: when
    [""] is a key, [set_current_city ""] succeeds and makes it the current
    city, and [get_current_config] then returns [None]. *)
Theorem empty_id_is_never_current (self : CityConfigManager) (d : disk) :
  dict_mem "" (configs self) = true -> writable d = true ->
  exists self' d',
    set_current_city "" self d = (Ok true, self', d') /\
    current_city self' = PStr "" /\
    get_config "" self' <> None /\
    get_current_config self' = Ok None.
Proof.
  intros Hmem Hw. run. rewrite Hmem. run. rewrite Hw.
  do 2 eexists. split; [reflexivity|]. cbn [current_city].
  split; [reflexivity|]. split.
  - unfold get_config, dict_mem in *. cbn [configs].
    now destruct (dict_get "" (configs self)).
  - reflexivity.
Qed.

Lemma empty_id_is_never_current_witness :
  exists self' d',
    set_current_city "" nameless_store {| file := None; writable := true |} =
    (Ok true, self', d') /\
    get_current_config self' = Ok None.
Proof.
  destruct (empty_id_is_never_current nameless_store
              {| file := None; writable := true |} eq_refl eq_refl)
    as (self' & d' & Hrun & _ & _ & Hnone).
  now exists self', d'.
Defined.

(** X13.  After [set_current_city] on a known, non-empty id,
    [get_current_config] returns the configuration stored under that id,
    whether the save succeeds or raises. *)
Theorem set_current_city_then_get (self : CityConfigManager) (d : disk)
        (city : string) (c : CityConfiguration) :
  city <> "" -> get_config city self = Some c ->
  get_current_config (snd (fst (set_current_city city self d))) = Ok (Some c).
Proof.
  intros Hne Hget. rewrite set_current_city_object.
  unfold get_config in Hget. unfold dict_mem. rewrite Hget.
  rewrite (get_current_config_str
             {| configs := configs self; current_city := PStr city |} city eq_refl).
  cbn [configs]. apply String.eqb_neq in Hne. now rewrite Hne, Hget.
Qed.

Lemma set_current_city_then_get_witness :
  get_current_config
    (snd (fst (set_current_city "fargo_nd" seeded {| file := None; writable := false |}))) =
  Ok (Some fargo).
Proof.
  apply set_current_city_then_get; [discriminate | reflexivity].
Defined.

(** ** Further properties: what [yaml.safe_load] accepts of what was saved *)

Lemma construct_seq_ok (items : list yaml) (v : pyval) :
  construct (YSeq items) = Ok v ->
  exists vs, v = PList vs /\ Forall2 (fun y x => construct y = Ok x) items vs.
Proof.
  simpl. intros H. invert_ok H. injection H as <-. exists a. split; [reflexivity|].
  revert a Ha. induction items as [|y r IH]; intros a Ha.
  - injection Ha as <-. constructor.
  - invert_ok Ha. invert_ok Ha. injection Ha as <-. constructor; auto.
Qed.

Lemma construct_map_ok (entries : list (string * yaml)) (v : pyval) :
  construct (YMap entries) = Ok v ->
  Forall (fun e => exists x, construct (snd e) = Ok x) entries.
Proof.
  simpl. intros H. invert_ok H. clear H.
  revert a Ha. induction entries as [|[k y] r IH]; intros a Ha; [constructor|].
  invert_ok Ha. invert_ok Ha. constructor; [now exists a0 | eauto].
Qed.

Lemma construct_seq_total (items : list yaml) :
  Forall (fun y => exists x, construct y = Ok x) items ->
  exists v, construct (YSeq items) = Ok v.
Proof.
  intros H. simpl.
  assert (E : exists vs,
             (fix all (ys : list yaml) : outcome (list pyval) :=
                match ys with
                | [] => Ok []
                | y' :: r => (v <- construct y' ;; vs <- all r ;; Ok (v :: vs))%outcome
                end) items = Ok vs).
  { induction H as [|y r [x Hx] _ [vs IH]]; [now exists []|].
    exists (x :: vs). now rewrite Hx, IH. }
  destruct E as [vs ->]. now eexists.
Qed.

Lemma construct_map_total (entries : list (string * yaml)) :
  Forall (fun e => exists x, construct (snd e) = Ok x) entries ->
  exists v, construct (YMap entries) = Ok v.
Proof.
  intros H. simpl.
  assert (E : exists vs,
             (fix all (es : list (string * yaml)) : outcome (list (string * pyval)) :=
                match es with
                | [] => Ok []
                | (k, y') :: r =>
                    (v <- construct y' ;; vs <- all r ;; Ok ((k, v) :: vs))%outcome
                end) entries = Ok vs).
  { induction H as [|[k y] r [x Hx] _ [vs IH]]; [now exists []|].
    exists ((k, x) :: vs). simpl in Hx. now rewrite Hx, IH. }
  destruct E as [vs ->]. now eexists.
Qed.

(** [construct] raises nothing but the error of PyYAML. *)
Lemma construct_raises_yaml_error (y : yaml) (e : exn) :
  construct y = Raise e -> e = YAMLError.
Proof.
  revert e. induction y as [| | | | |l IH|l IH|t y IH] using yaml_nested_ind;
    intros e; simpl; try discriminate.
  - assert (G : forall e',
               (fix all (ys : list yaml) : outcome (list pyval) :=
                  match ys with
                  | [] => Ok []
                  | y' :: r => (v <- construct y' ;; vs <- all r ;; Ok (v :: vs))%outcome
                  end) l = Raise e' -> e' = YAMLError).
    { induction IH as [|y r Hy _ IHr]; intros e'; [discriminate|].
      destruct (construct y) as [x|e0] eqn:Hx; simpl.
      - match goal with
        | |- context [obind ?t _] => destruct t as [vs|e1] eqn:Hr
        end; simpl; [discriminate|].
        intros [= <-]. now apply IHr.
      - intros [= <-]. now apply Hy. }
    match goal with
    | |- context [obind ?t _] => destruct t as [vs|e1] eqn:Hr
    end; simpl; [discriminate|].
    intros [= <-]. now apply G.
  - assert (G : forall e',
               (fix all (es : list (string * yaml)) : outcome (list (string * pyval)) :=
                  match es with
                  | [] => Ok []
                  | (k, y') :: r =>
                      (v <- construct y' ;; vs <- all r ;; Ok ((k, v) :: vs))%outcome
                  end) l = Raise e' -> e' = YAMLError).
    { induction IH as [|[k y] r Hy _ IHr]; intros e'; [discriminate|].
      simpl in Hy. destruct (construct y) as [x|e0] eqn:Hx; simpl.
      - match goal with
        | |- context [obind ?t _] => destruct t as [vs|e1] eqn:Hr
        end; simpl; [discriminate|].
        intros [= <-]. now apply IHr.
      - intros [= <-]. now apply Hy. }
    match goal with
    | |- context [obind ?t _] => destruct t as [vs|e1] eqn:Hr
    end; simpl; [discriminate|].
    intros [= <-]. now apply G.
  - now intros [= <-].
Qed.

(** What [yaml.dump] writes for a value is read by [yaml.safe_load]
    exactly when the value holds no tuple. *)
Lemma construct_represent_tuple (v : pyval) :
  (has_tuple v = true -> construct (represent v) = Raise YAMLError) /\
  (has_tuple v = false -> exists v', construct (represent v) = Ok v').
Proof.
  assert (Hok : forall v v', construct (represent v) = Ok v' -> has_tuple v = false).
  { clear v. intros v.
    induction v as [| | | | |l IH|l IH|d IH] using pyval_nested_ind; intros v' H;
      try reflexivity; try discriminate.
    - cbn [represent] in H. apply construct_seq_ok in H as (vs & _ & HF).
      cbn [has_tuple]. revert vs HF.
      induction IH as [|x r Hx _ IHr]; intros vs HF; [reflexivity|].
      simpl in HF. inversion HF as [|? y ? ys Hy Hys]; subst. simpl.
      rewrite (Hx _ Hy). simpl. exact (IHr _ Hys).
    - cbn [represent] in H. apply construct_map_ok in H.
      apply (Permutation_Forall (sorted_items_perm _)) in H.
      cbn [has_tuple]. induction IH as [|[k x] r Hx _ IHr]; [reflexivity|].
      simpl in H. inversion H as [|? ? [x' Hx'] Hr]; subst. simpl in *.
      rewrite (Hx _ Hx'). simpl. exact (IHr Hr). }
  assert (Htot : forall v, has_tuple v = false -> exists v', construct (represent v) = Ok v').
  { clear v Hok. intros v.
    induction v as [| | | | |l IH|l IH|d IH] using pyval_nested_ind; intros H;
      try (eexists; reflexivity); try discriminate.
    - cbn [represent]. apply construct_seq_total. cbn [has_tuple] in H.
      induction IH as [|x r Hx _ IHr]; [constructor|].
      simpl in H. apply orb_false_elim in H as [H1 H2].
      simpl. constructor; auto.
    - cbn [represent]. apply construct_map_total.
      apply (Permutation_Forall (Permutation_sym (sorted_items_perm _))).
      cbn [has_tuple] in H. induction IH as [|[k x] r Hx _ IHr]; [constructor|].
      simpl in H. apply orb_false_elim in H as [H1 H2].
      simpl. constructor; auto. }
  split; [|apply Htot].
  intros H. destruct (construct (represent v)) as [v'|e] eqn:E.
  - apply Hok in E. congruence.
  - now rewrite (construct_raises_yaml_error _ _ E).
Qed.

Lemma save_data_has_tuple (self : CityConfigManager) :
  has_tuple (save_data self) = store_has_tuple self.
Proof.
  unfold save_data, store_has_tuple. cbn [has_tuple existsb snd].
  rewrite orb_false_r. f_equal.
  induction (configs self) as [|[k c] r IH]; [reflexivity|].
  cbn [map existsb fst snd]. now rewrite IH.
Qed.

(** X14.  The file [save_configs] writes is rejected by [yaml.safe_load]
    exactly when the store holds a tuple, in a field of a configuration or
    in [current_city]; a fresh object, or any object, that loads such a
    file seeds the defaults and overwrites it. *)
Theorem saved_store_rejected_iff_tuple (self : CityConfigManager) :
  (safe_load (saved self) = Raise YAMLError <-> store_has_tuple self = true) /\
  (store_has_tuple self = true ->
   forall self0,
     load_configs self0 {| file := Some (saved self); writable := true |} =
     (Ok tt, seeded, {| file := Some (saved seeded); writable := true |})).
Proof.
  assert (Hraise : store_has_tuple self = true ->
                   safe_load (saved self) = Raise YAMLError).
  { intros H. unfold saved. cbn [safe_load].
    apply (proj1 (construct_represent_tuple (save_data self))).
    now rewrite save_data_has_tuple. }
  split; [split; [|exact Hraise]|].
  - intros H. destruct (store_has_tuple self) eqn:E; [reflexivity|].
    rewrite <- save_data_has_tuple in E.
    destruct (proj2 (construct_represent_tuple (save_data self)) E) as [v' Hv'].
    unfold saved in H. cbn [safe_load] in H. congruence.
  - intros H self0. rewrite load_configs_eq. cbn [file].
    unfold try_block. now rewrite (Hraise H).
Qed.

Lemma saved_store_rejected_iff_tuple_witness :
  load_configs fresh {| file := Some (saved fargo_selected); writable := true |} =
  (Ok tt, seeded, {| file := Some (saved seeded); writable := true |}).
Proof.
  apply (proj2 (saved_store_rejected_iff_tuple fargo_selected)). reflexivity.
Defined.

(** X15.  [load_configs] writes nothing but the defaults: whatever the
    file and the object, it leaves the disk as it was, or it has seeded the
    built-in store and that store is what the file now holds. *)
Theorem load_configs_writes_defaults_only (self self' : CityConfigManager)
        (d d' : disk) (r : outcome unit) :
  load_configs self d = (r, self', d') ->
  d' = d \/ (self' = seeded /\ file d' = Some (saved seeded)).
Proof.
  rewrite load_configs_eq.
  assert (Hseed : seed d = (r, self', d') ->
                  d' = d \/ (self' = seeded /\ file d' = Some (saved seeded))).
  { unfold seed. destruct (writable d); intros [= <- <- <-]; auto. }
  destruct (file d) as [c|]; [|exact Hseed].
  destruct (try_block c (configs self)); [|exact Hseed].
  intros [= <- <- <-]. now left.
Qed.

Lemma load_configs_writes_defaults_only_witness :
  {| file := Some (saved listed_store); writable := true |} =
  {| file := Some (saved listed_store); writable := true |} \/
  (listed_store = seeded /\
   file {| file := Some (saved listed_store); writable := true |} = Some (saved seeded)).
Proof.
  apply (load_configs_writes_defaults_only fresh listed_store
           {| file := Some (saved listed_store); writable := true |} _ (Ok tt)).
  vm_compute. reflexivity.
Defined.

(** ** Further properties: loading over an object that holds configurations *)

Lemma load_items_reloaded_merge (cs : dict CityConfiguration) :
  forallb (fun kv => plain_config (snd kv)) cs = true ->
  forall acc,
    load_items (map (fun kv => (fst kv, reloaded (snd kv))) cs) acc =
    Ok (fold_left (fun a kv => dict_set (fst kv) (snd kv) a) cs acc).
Proof.
  induction cs as [|[k c] r IH]; simpl; intros Hp acc; [reflexivity|].
  apply andb_prop in Hp as [Hc Hr].
  rewrite (proj2 (from_dict_reloaded c Hc)). simpl. now apply IH.
Qed.

Lemma dict_get_merge {V : Type} (cs : dict V) :
  dict_wf cs ->
  forall (acc : dict V) (k : string),
    dict_get k (fold_left (fun a kv => dict_set (fst kv) (snd kv) a) cs acc) =
    match dict_get k cs with
    | Some v => Some v
    | None => dict_get k acc
    end.
Proof.
  unfold dict_wf. induction cs as [|[k0 v0] r IH]; simpl; intros Hwf acc k;
    [reflexivity|].
  inversion Hwf as [|? ? Hn Hr]; subst. rewrite (IH Hr).
  destruct (String.eqb_spec k0 k) as [->|Hne].
  - rewrite dict_get_set_same.
    destruct (dict_get k r) eqn:E; [|reflexivity].
    exfalso. apply Hn. apply dict_mem_In. unfold dict_mem. now rewrite E.
  - now rewrite (dict_get_set_other k0 k v0 acc Hne).
Qed.

(** The [try] block on the file of a store with unique keys and plain
    values, run on an object that already holds [cs]. *)
Lemma try_block_saved_plain (s0 : CityConfigManager) (cs : dict CityConfiguration) :
  dict_wf (configs s0) ->
  forallb (fun kv => plain_config (snd kv)) (configs s0) = true ->
  plain (current_city s0) = true ->
  try_block (saved s0) cs =
  Ok {| configs := fold_left (fun a kv => dict_set (fst kv) (snd kv) a)
                             (sorted_items (configs s0)) cs;
        current_city := current_city s0 |}.
Proof.
  intros Hwf Hp Hcur. unfold try_block. rewrite saved_eq. cbn [safe_load].
  rewrite (sorted_items_map_values (fun c => represent (to_dict c))).
  rewrite (construct_two_entries _ _ _ _ _ _
             (construct_cities _ (forallb_sorted_items _ _ Hp))
             (construct_represent_plain _ Hcur)).
  cbn. rewrite dict_of_items_wf.
  - now rewrite (load_items_reloaded_merge _ (forallb_sorted_items _ _ Hp)).
  - unfold dict_wf, dict_keys. rewrite map_map. cbn [fst].
    now apply sorted_items_wf.
Qed.

(** X16.  [load_configs] on an object that already holds configurations
    merges: with the file of a store with unique keys and plain values, the
    object ends with the file's configuration under every id of the file,
    keeps its own under every other id, and takes the file's current city;
    the file is not written. *)
Theorem load_configs_merges (s0 self : CityConfigManager) (w : bool) :
  dict_wf (configs s0) ->
  forallb (fun kv => plain_config (snd kv)) (configs s0) = true ->
  plain (current_city s0) = true ->
  exists self',
    load_configs self {| file := Some (saved s0); writable := w |} =
    (Ok tt, self', {| file := Some (saved s0); writable := w |}) /\
    (forall k, get_config k self' =
               match get_config k s0 with
               | Some c => Some c
               | None => get_config k self
               end) /\
    current_city self' = current_city s0.
Proof.
  intros Hwf Hp Hcur. rewrite load_configs_eq. cbn [file].
  rewrite (try_block_saved_plain s0 (configs self) Hwf Hp Hcur).
  eexists. split; [reflexivity|]. split; [|reflexivity].
  intros k. unfold get_config. cbn [configs].
  rewrite (dict_get_merge _ (sorted_items_wf _ Hwf)).
  now rewrite (dict_get_sorted_items _ k Hwf).
Qed.

Lemma load_configs_merges_witness :
  exists self',
    load_configs seeded {| file := Some (saved listed_store); writable := true |} =
    (Ok tt, self', {| file := Some (saved listed_store); writable := true |}) /\
    get_config "fargo_nd" self' = Some fargo_lists /\
    get_config "bismarck_nd" self' = Some bismarck.
Proof.
  assert (Hwf : dict_wf (configs listed_store)).
  { unfold dict_wf. simpl. repeat constructor; simpl; intuition discriminate. }
  destruct (load_configs_merges listed_store seeded true Hwf eq_refl eq_refl)
    as (self' & Hrun & Hget & _).
  exists self'. split; [exact Hrun|]. now rewrite !Hget.
Defined.

(** ** Further properties: the module-level functions *)

Lemma get_current_config_sorted (cs : dict CityConfiguration) (cur : pyval) :
  dict_wf cs ->
  get_current_config {| configs := sorted_items cs; current_city := cur |} =
  get_current_config {| configs := cs; current_city := cur |}.
Proof.
  intros Hwf. unfold get_current_config, py_in, py_subscript, dict_mem.
  cbn [configs current_city].
  destruct (truthy cur); [|reflexivity].
  destruct (hashable cur); [|reflexivity].
  destruct cur; try reflexivity.
  now rewrite (dict_get_sorted_items cs s Hwf).
Qed.

(** [get_city_bounds] on the file of a store with unique keys and plain
    values. *)
Lemma accessors_bounds_saved (s : CityConfigManager) (w : bool) :
  dict_wf (configs s) ->
  forallb (fun kv => plain_config (snd kv)) (configs s) = true ->
  plain (current_city s) = true ->
  Compat.get_city_bounds {| file := Some (saved s); writable := w |} =
    (match get_current_config s with
     | Ok (Some c) =>
         Ok (min_lat (bounds c), max_lat (bounds c), min_lon (bounds c), max_lon (bounds c))
     | Ok None => Ok (PFloat 47.85, PFloat 47.95, PFloat (-97.15), PFloat (-97.0))
     | Raise e => Raise e
     end, {| file := Some (saved s); writable := w |}).
Proof.
  intros Hwf Hp Hcur. unfold Compat.get_city_bounds.
  rewrite (save_then_load_plain s w Hwf Hp Hcur).
  rewrite (get_current_config_sorted _ _ Hwf).
  destruct s as [cs cur]. cbn [configs current_city].
  now destruct (get_current_config {| configs := cs; current_city := cur |}) as [[c|]|e].
Qed.

(** X17.  On the file of a store with unique keys and plain values, the
    module-level [get_current_city_name] and [get_city_bounds] answer as
    [get_current_config] does on that store: the display name and the four
    bounds of the current configuration, or ["Grand Forks, ND"] and the
    bounds of Grand Forks when there is none; the file is not written. *)
Theorem accessors_read_saved_store (s : CityConfigManager) (w : bool) :
  dict_wf (configs s) ->
  forallb (fun kv => plain_config (snd kv)) (configs s) = true ->
  plain (current_city s) = true ->
  let d := {| file := Some (saved s); writable := w |} in
  Compat.get_current_city_name d =
    (match get_current_config s with
     | Ok (Some c) => Ok (display_name c)
     | Ok None => Ok (PStr "Grand Forks, ND")
     | Raise e => Raise e
     end, d) /\
  Compat.get_city_bounds d =
    (match get_current_config s with
     | Ok (Some c) =>
         Ok (min_lat (bounds c), max_lat (bounds c), min_lon (bounds c), max_lon (bounds c))
     | Ok None => Ok (PFloat 47.85, PFloat 47.95, PFloat (-97.15), PFloat (-97.0))
     | Raise e => Raise e
     end, d).
Proof.
  intros Hwf Hp Hcur d. unfold Compat.get_current_city_name, Compat.get_city_bounds.
  unfold d. rewrite (save_then_load_plain s w Hwf Hp Hcur).
  rewrite (get_current_config_sorted _ _ Hwf).
  destruct s as [cs cur]. cbn [configs current_city].
  destruct (get_current_config {| configs := cs; current_city := cur |}) as [[c|]|e];
    split; reflexivity.
Qed.

Lemma accessors_read_saved_store_witness :
  Compat.get_current_city_name {| file := Some (saved listed_store); writable := false |} =
  (Ok (PStr "Fargo, ND"), {| file := Some (saved listed_store); writable := false |}).
Proof.
  assert (Hwf : dict_wf (configs listed_store)).
  { unfold dict_wf. simpl. repeat constructor; simpl; intuition discriminate. }
  exact (proj1 (accessors_read_saved_store listed_store false Hwf eq_refl eq_refl)).
Defined.

(** X18.  With no usable file the module-level functions answer for Grand
    Forks and, as a side effect of building the manager, leave the file of
    the built-in store; when that file cannot be written they raise
    [OSError]. *)
Theorem accessors_on_unusable_file (d : disk) :
  unusable (file d) ->
  (writable d = true ->
   let d' := {| file := Some (saved seeded); writable := true |} in
   Compat.get_current_city_name d = (Ok (PStr "Grand Forks, ND"), d') /\
   Compat.get_city_bounds d =
     (Ok (PFloat 47.85, PFloat 47.95, PFloat (-97.15), PFloat (-97.0)), d')) /\
  (writable d = false ->
   Compat.get_current_city_name d = (Raise OSError, d) /\
   Compat.get_city_bounds d = (Raise OSError, d) /\
   Compat.get_grid_points d = Some (Raise OSError, d)).
Proof.
  intros Hun.
  unfold Compat.get_current_city_name, Compat.get_city_bounds, Compat.get_grid_points,
    new_manager.
  rewrite (load_unusable fresh d Hun). unfold seed.
  split; intros Hw; rewrite Hw; repeat split.
Qed.

Lemma accessors_on_unusable_file_witness :
  Compat.get_current_city_name {| file := Some Garbled; writable := true |} =
  (Ok (PStr "Grand Forks, ND"), {| file := Some (saved seeded); writable := true |}).
Proof.
  apply (proj1 (accessors_on_unusable_file {| file := Some Garbled; writable := true |}
                  unusable_garbled)).
  reflexivity.
Defined.

(** X19.  The module-level [get_grid_points], on the file of a store with
    unique keys and plain values, returns the grid of the current
    configuration's bounds; when there is no current configuration it
    returns the grid of the built-in Grand Forks bounds, whatever the store
    holds. *)
Theorem grid_accessor_reads_saved_store (s : CityConfigManager) (w : bool) :
  dict_wf (configs s) ->
  forallb (fun kv => plain_config (snd kv)) (configs s) = true ->
  plain (current_city s) = true ->
  let d := {| file := Some (saved s); writable := w |} in
  Compat.get_grid_points d =
  match get_current_config s with
  | Ok (Some c) => option_map (fun g => (Ok g, d)) (get_grid_points (bounds c))
  | Ok None => option_map (fun g => (Ok g, d)) (get_grid_points (bounds grand_forks))
  | Raise e => Some (Raise e, d)
  end.
Proof.
  intros Hwf Hp Hcur d.
  pose proof (accessors_bounds_saved s w Hwf Hp Hcur) as Hb.
  unfold Compat.get_grid_points. unfold d in *.
  rewrite (save_then_load_plain s w Hwf Hp Hcur).
  rewrite (get_current_config_sorted _ _ Hwf).
  destruct s as [cs cur]. cbn [configs current_city] in *.
  destruct (get_current_config {| configs := cs; current_city := cur |}) as [[c|]|e].
  - now destruct (get_grid_points (bounds c)).
  - rewrite Hb. unfold get_grid_points.
    cbn [bounds grand_forks min_lat max_lat min_lon max_lon grid_spacing].
    destruct (np_arange (PFloat 47.85) (PFloat 47.95) (PFloat 0.005)) as [lats|];
      [|reflexivity].
    now destruct (np_arange (PFloat (-97.15)) (PFloat (-97.0)) (PFloat 0.005)).
  - reflexivity.
Qed.

Lemma grid_accessor_reads_saved_store_witness :
  Compat.get_grid_points {| file := Some (saved listed_store); writable := false |} =
  option_map (fun g => (Ok g, {| file := Some (saved listed_store); writable := false |}))
             (get_grid_points (bounds fargo)).
Proof.
  assert (Hwf : dict_wf (configs listed_store)).
  { unfold dict_wf. simpl. repeat constructor; simpl; intuition discriminate. }
  exact (grid_accessor_reads_saved_store listed_store false Hwf eq_refl eq_refl).
Defined.

(** ** Further properties: the data loader *)

Lemma available_loop_eq (manager : CityConfigManager) (present : string -> bool)
      (ids : list string) :
  (forall k, In k ids -> dict_mem k (configs manager) = true) ->
  forall available,
    available_loop manager present ids available =
    Ok (available ++
        map (fun city =>
               PDict [("city_id", PStr city);
                      ("display_name",
                       match get_config city manager with
                       | Some c => display_name c
                       | None => PNone
                       end);
                      ("file_path", PStr (processed_data_file city))])
            (filter (fun city => present (processed_data_file city)) ids)).
Proof.
  induction ids as [|city r IH]; intros Hin available; cbn [available_loop filter map].
  - now rewrite app_nil_r.
  - destruct (present (processed_data_file city)).
    + assert (Hmem : dict_mem city (configs manager) = true) by (apply Hin; now left).
      unfold get_config, dict_mem in Hmem |- *.
      destruct (dict_get city (configs manager)) as [c|] eqn:Hget; [|discriminate].
      rewrite IH by (intros k Hk; apply Hin; now right).
      cbn [map]. unfold get_config at 1. rewrite Hget.
      now rewrite <- app_assoc.
    + apply IH. intros k Hk. apply Hin. now right.
Qed.

(** X20.  [get_available_cities] never raises: it returns, in the order of
    [list_cities], one entry for each city whose cache file exists, with
    the city's id, the display name of its configuration and the path of
    the file. *)
Theorem get_available_cities_entries (manager : CityConfigManager)
        (present : string -> bool) :
  get_available_cities manager present =
  Ok (map (fun city =>
             PDict [("city_id", PStr city);
                    ("display_name",
                     match get_config city manager with
                     | Some c => display_name c
                     | None => PNone
                     end);
                    ("file_path", PStr (processed_data_file city))])
          (filter (fun city => present (processed_data_file city))
                  (list_cities manager))).
Proof.
  unfold get_available_cities. rewrite available_loop_eq; [reflexivity|].
  intros k Hk. now apply dict_mem_In.
Qed.

Section DataLoaderFacts.
Variable Data : Type.
Variable data_truthy : Data -> bool.
Variable locations : Data -> outcome nat.

(** X21.  Once [load_city_data] has returned a (true) object for a city,
    asking for the same city again returns that object from the cache,
    whatever the cache directories hold by then. *)
Theorem load_city_data_cache_hit (city : string) (self self' : EnhancedDataLoader Data)
        (fs fs' : files Data) (data : Data) :
  load_city_data Data data_truthy locations city self fs = (Some data, self') ->
  data_truthy data = true ->
  load_city_data Data data_truthy locations city self' fs' = (Some data, self').
Proof.
  unfold load_city_data. intros H Ht.
  destruct (cached Data data_truthy self city) eqn:Hc.
  - injection H as Hd <-. now rewrite Hc, Hd.
  - destruct (negb (present Data fs (processed_data_file city))); [discriminate|].
    destruct (unpickle Data fs (processed_data_file city)) as [data0|e]; [|discriminate].
    destruct (locations data0); [|discriminate].
    injection H as -> <-.
    unfold cached. cbn [current_city_id current_data].
    now rewrite String.eqb_refl, Ht.
Qed.

(** X22.  A load can return [None] and still fill the cache: when the file
    unpickles to a (true) object on which [len(data['df_filtered'])] raises,
    [load_city_data] returns [None], and the next call for the same city
    returns that object. *)
Theorem load_city_data_none_then_cached (city : string) (self : EnhancedDataLoader Data)
        (fs fs' : files Data) (data : Data) (e : exn) :
  cached Data data_truthy self city = false ->
  present Data fs (processed_data_file city) = true ->
  unpickle Data fs (processed_data_file city) = Ok data ->
  locations data = Raise e ->
  data_truthy data = true ->
  exists self',
    load_city_data Data data_truthy locations city self fs = (None, self') /\
    load_city_data Data data_truthy locations city self' fs' = (Some data, self').
Proof.
  intros Hc Hp Hu Hl Ht. unfold load_city_data. rewrite Hc, Hp, Hu, Hl. simpl.
  eexists. split; [reflexivity|].
  unfold cached. cbn [current_city_id current_data].
  now rewrite String.eqb_refl, Ht.
Qed.
End DataLoaderFacts.

Lemma load_city_data_cache_hit_witness :
  load_city_data nat (fun n => negb (Nat.eqb n 0)) (fun n => Ok n) "fargo_nd"
    {| city_manager := seeded; current_data := Some 7; current_city_id := Some "fargo_nd" |}
    {| present := fun _ => false; unpickle := fun _ => Raise OSError |} =
  (Some 7,
   {| city_manager := seeded; current_data := Some 7; current_city_id := Some "fargo_nd" |}).
Proof.
  apply (load_city_data_cache_hit nat (fun n => negb (Nat.eqb n 0)) (fun n => Ok n)
           "fargo_nd"
           {| city_manager := seeded; current_data := None; current_city_id := None |}
           _
           {| present := fun _ => true; unpickle := fun _ => Ok 7 |}
           {| present := fun _ => false; unpickle := fun _ => Raise OSError |} 7);
    reflexivity.
Defined.

Lemma load_city_data_none_then_cached_witness :
  exists self',
    load_city_data nat (fun n => negb (Nat.eqb n 0)) (fun _ => Raise KeyError) "fargo_nd"
      {| city_manager := seeded; current_data := None; current_city_id := None |}
      {| present := fun _ => true; unpickle := fun _ => Ok 7 |} = (None, self') /\
    load_city_data nat (fun n => negb (Nat.eqb n 0)) (fun _ => Raise KeyError) "fargo_nd"
      self' {| present := fun _ => false; unpickle := fun _ => Raise OSError |} =
    (Some 7, self').
Proof.
  apply (load_city_data_none_then_cached nat (fun n => negb (Nat.eqb n 0))
           (fun _ => Raise KeyError) "fargo_nd" _ _ _ 7 KeyError); reflexivity.
Defined.

(** ** Further properties: the grid *)

Lemma arange_head (start stop step x : float) (l : list float) :
  arange start stop step = Some (x :: l) -> x = start.
Proof.
  unfold arange. destruct (ceil_to_intp ((stop - start) / step)%float) as [len|];
    [|discriminate].
  destruct (Z.to_nat len) as [|[|n]]; [discriminate | |]; now intros [= <- _].
Qed.

(** X23.  A grid that is not empty starts at the lower corner: its first
    point is [(min_lat, min_lon)]. *)
Theorem grid_starts_at_min (b : CityBounds) (g : list (float * float)) :
  get_grid_points b = Some g -> g <> [] ->
  exists lat lon,
    as_double (min_lat b) = Some lat /\ as_double (min_lon b) = Some lon /\
    hd_error g = Some (lat, lon).
Proof.
  unfold get_grid_points, np_arange. intros H Hne.
  destruct (is_float (min_lat b) || is_float (max_lat b) || is_float (grid_spacing b));
    [|discriminate].
  destruct (as_double (min_lat b)) as [a|]; [|discriminate].
  destruct (as_double (max_lat b)) as [a'|]; [|discriminate].
  destruct (as_double (grid_spacing b)) as [st|]; [|discriminate].
  destruct (arange a a' st) as [lats|] eqn:Hlats; [|discriminate].
  destruct (is_float (min_lon b) || is_float (max_lon b) || is_float (grid_spacing b));
    [|discriminate].
  destruct (as_double (min_lon b)) as [o|]; [|discriminate].
  destruct (as_double (max_lon b)) as [o'|]; [|discriminate].
  destruct (arange o o' st) as [lons|] eqn:Hlons; [|discriminate].
  injection H as <-. exists a, o. repeat split.
  destruct lats as [|x lats]; [now destruct Hne|].
  destruct lons as [|y lons].
  - exfalso. apply Hne. simpl. clear. induction lats; simpl; auto.
  - apply arange_head in Hlats, Hlons. now subst.
Qed.

Lemma grid_starts_at_min_witness :
  exists g, get_grid_points unit_box = Some g /\ hd_error g = Some (0, 0)%float.
Proof.
  destruct (get_grid_points unit_box) as [g|] eqn:E; [|vm_compute in E; discriminate].
  exists g. split; [reflexivity|].
  destruct (grid_starts_at_min unit_box g E) as (lat & lon & Hlat & Hlon & Hhd).
  - intros ->. vm_compute in E. discriminate.
  - simpl in Hlat, Hlon. injection Hlat as <-. injection Hlon as <-. exact Hhd.
Defined.
